(** * rivian-gear-shop-notifier: the scrapper and notifier Lambda handlers

  A shallow embedding of [src/scrapper/main.go] and of the three variants
  of [src/notifier/main.go] (SNS publish, SES text mail, SES HTML mail),
  followed by the properties of the scrape-extract-dedup-persist pipeline
  and of the notifier's event loop.

  Go strings are byte strings and are modelled by [string]; Go's [int]
  is modelled by [Z] (every integer below is the length of a slice, far
  away from the 64-bit bounds).  The services the handlers talk to
  (DynamoDB, the web page behind colly, SNS and SES) are explicit parts
  of a [World] value that every operation threads through. *)

From Stdlib Require Import ZArith Ascii String List DecimalString.
From stdpp Require Import base option list gmap strings.

Open Scope string_scope.
Open Scope list_scope.
Open Scope Z_scope.
Open Scope nat_scope.
Open Scope stdpp_scope.

(* ===================================================================== *)
(** * Part I: definitions                                                 *)
(* ===================================================================== *)

(** ** The fragment of Go's standard library used by the handlers *)

Module strings.

(** [strings.Contains(s, substr)]: [substr] starts at some position of [s]. *)
Fixpoint Contains (s substr : string) : bool :=
  String.prefix substr s ||
  match s with
  | EmptyString => false
  | String _ s' => Contains s' substr
  end.

(** The worker of [strings.Split] for a non-empty separator.  [cur] is the
    segment read so far, [skip] counts the bytes of a separator that has
    been recognised at an earlier position and is still to be passed. *)
Fixpoint genSplit (sep : string) (skip : nat) (cur s : string) : list string :=
  match s with
  | EmptyString => [cur]
  | String c s' =>
      match skip with
      | S k => genSplit sep k cur s'
      | O =>
          if String.prefix sep s
          then cur :: genSplit sep (String.length sep - 1) EmptyString s'
          else genSplit sep 0 (cur +:+ String c EmptyString) s'
      end
  end.

(** The bytes of [s], one string each (what [Split] does for [sep = ""],
    up to the grouping of multi-byte UTF-8 sequences). *)
Fixpoint explode (s : string) : list string :=
  match s with
  | EmptyString => []
  | String c s' => String c EmptyString :: explode s'
  end.

(** [strings.Split(s, sep)]. *)
Definition Split (s sep : string) : list string :=
  match sep with
  | EmptyString => explode s
  | String _ _ => genSplit sep 0 EmptyString s
  end.

End strings.

Module fmt.

(** The [%d] verb. *)
Definition d (n : Z) : string := NilZero.string_of_int (Z.to_int n).

End fmt.

(** Go's [error] values are represented by their message; [None] is [nil]. *)
Definition error := string.

(** How a Go function call can end: it returns, it panics, or the process
    is terminated by [os.Exit] (which is what [log.Fatalf] does after
    printing). *)
Inductive outcome (A : Type) : Type :=
| Returned (a : A)
| Panicked (msg : string)
| Exited (status : Z).
Arguments Returned {A} a.
Arguments Panicked {A} msg.
Arguments Exited {A} status.

(** Computations over a world [W]: state passing, with panics and exits
    cutting the rest of the computation short. *)
Definition M (W A : Type) : Type := W -> outcome A * W.

Definition ret {W A} (a : A) : M W A := fun w => (Returned a, w).

Definition bind {W A B} (m : M W A) (k : A -> M W B) : M W B :=
  fun w =>
    match m w with
    | (Returned a, w') => k a w'
    | (Panicked msg, w') => (Panicked msg, w')
    | (Exited n, w') => (Exited n, w')
    end.

Definition panic {W A} (msg : string) : M W A := fun w => (Panicked msg, w).

Declare Scope go_scope.
Delimit Scope go_scope with go.
Notation "'do' x <- m ; k" := (bind m (fun x => k))
  (at level 10, x pattern, m at level 100, k at level 200) : go_scope.
Notation "m ;; k" := (bind m (fun _ => k))
  (at level 100, k at level 200, right associativity) : go_scope.

(** A [for ... range] loop whose body updates the loop-carried variables. *)
Fixpoint forRange {W A S} (l : list A) (body : A -> S -> M W S) (s : S) : M W S :=
  match l with
  | [] => ret s
  | x :: l' => bind (body x s) (forRange l' body)
  end.

Module url.

(** [net/url]: what the handler observes of a [*url.URL], namely the text
    [String()] re-assembles and the parsed query [Query()]. *)
Record URL := { String_ : string; Query : gmap string (list string) }.

(** [Values.Get]: the first value of the key, [""] when there is none. *)
Definition Get (v : gmap string (list string)) (key : string) : string :=
  match v !! key with
  | Some (x :: _) => x
  | _ => ""
  end.

End url.

Module colly.

Record request := { URL : url.URL }.

(** [colly.HTMLElement] through the methods the handler calls on it.
    [ForEach sel] lists the descendants matching [sel] in document order;
    [ChildText sel] is the text of the descendants matching [sel]. *)
#[warnings="-register-all"]
Inductive HTMLElement : Type := mkHTMLElement {
  Text : string;
  Attr : string -> string;
  ChildText : string -> string;
  ForEach : string -> list HTMLElement;
  Request : request
}.

End colly.

Module dynamodb.

(** [dynamodb.AttributeValue]: only the string member [S] (a [*string],
    [None] when nil) is read or written by the handler. *)
Record AttributeValue := { S_ : option string }.

#[global] Instance AttributeValue_eq_dec : EqDecision AttributeValue.
Proof. solve_decision. Defined.

Record ScanInput := { Scan_TableName : string }.
Record ScanOutput := { Items : list (gmap string AttributeValue) }.
Record PutItemInput := { TableName : string; Item : gmap string AttributeValue }.

Inductive Request : Type :=
| ScanRequest (input : ScanInput)
| PutItemRequest (input : PutItemInput).

(** The table behind the client [db], keyed by the attribute ["Id"].
    [faults] scripts the service: each request consumes the head, and
    fails with it when it is an error; an exhausted script means success.
    [requests] records every request made, oldest first.  The handler
    sends a single [Scan] and reads the one page of items it is answered
    with; the table is taken to fit in that page, so the answer of an
    accepted scan holds all its items. *)
Record DynamoDB := {
  table : list (gmap string AttributeValue);
  faults : list (option error);
  requests : list Request
}.

Definition Scan (input : ScanInput) (db : DynamoDB) : (error + ScanOutput) * DynamoDB :=
  let db' := {| table := table db; faults := tail (faults db);
                requests := requests db ++ [ScanRequest input] |} in
  match faults db with
  | Some err :: _ => (inl err, db')
  | _ => (inr {| Items := table db |}, db')
  end.

Definition sameKey (a b : gmap string AttributeValue) : bool :=
  bool_decide (a !! "Id" = b !! "Id").

Definition PutItem (input : PutItemInput) (db : DynamoDB) : option error * DynamoDB :=
  let reqs := requests db ++ [PutItemRequest input] in
  match faults db with
  | Some err :: _ =>
      (Some err, {| table := table db; faults := tail (faults db); requests := reqs |})
  | _ =>
      (None, {| table := List.filter (fun it => negb (sameKey it (Item input))) (table db)
                           ++ [Item input];
                faults := tail (faults db); requests := reqs |})
  end.

End dynamodb.

(** ** src/scrapper/main.go *)

Module scrapper.

Open Scope go_scope.

(** ProductInfo: the product information extracted from one anchor. *)
Record ProductInfo := {
  Id : string;
  Name : string;
  SKU : string;
  Price : string;
  URL : string
}.

Record Response := {
  Message : string;
  NumberDiscovered : Z;
  NumberIndexed : Z
}.

(** What a run of the scrapper reads and changes: the environment
    variables, the clock, the DynamoDB client [db], the package variable
    [existingProducts], the web as colly sees it (for a URL, either the
    error of the fetch or the elements matching the [OnHTML] selector, in
    document order), the URLs fetched so far and the lines written by
    [log]. *)
Record World := {
  env : gmap string string;
  now : string;
  db : dynamodb.DynamoDB;
  existingProducts : gmap string bool;
  web : string -> error + list colly.HTMLElement;
  visited : list string;
  logged : list string
}.

Definition Getenv (key : string) (w : World) : string := default "" (env w !! key).

Definition set_db (d : dynamodb.DynamoDB) (w : World) : World :=
  {| env := env w; now := now w; db := d; existingProducts := existingProducts w;
     web := web w; visited := visited w; logged := logged w |}.

Definition set_existingProducts (m : gmap string bool) (w : World) : World :=
  {| env := env w; now := now w; db := db w; existingProducts := m;
     web := web w; visited := visited w; logged := logged w |}.

(** [log.Printf] and [log.Println]: one more line on the log. *)
Definition log_Print (line : string) : M World unit :=
  fun w => (Returned tt,
            {| env := env w; now := now w; db := db w; existingProducts := existingProducts w;
               web := web w; visited := visited w; logged := logged w ++ [line] |}).

(** [log.Fatalf]: print, then [os.Exit(1)]. *)
Definition log_Fatal {A} (line : string) : M World A :=
  fun w => match log_Print line w with (_, w') => (Exited 1%Z, w') end.

Definition db_Scan (input : dynamodb.ScanInput) : M World (error + dynamodb.ScanOutput) :=
  fun w => match dynamodb.Scan input (db w) with (r, d) => (Returned r, set_db d w) end.

Definition db_PutItem (input : dynamodb.PutItemInput) : M World (option error) :=
  fun w => match dynamodb.PutItem input (db w) with (r, d) => (Returned r, set_db d w) end.

(** The body of the loop of [loadExistingProducts]; [*attr.S] panics on a
    nil [S]. *)
Definition recordExisting (item : gmap string dynamodb.AttributeValue) (_ : unit)
  : M World unit :=
  fun w =>
    match item !! "Id" with
    | Some attr =>
        match dynamodb.S_ attr with
        | Some s => (Returned tt, set_existingProducts (<[s := true]> (existingProducts w)) w)
        | None => (Panicked "invalid memory address or nil pointer dereference", w)
        end
    | None => (Returned tt, w)
    end.

(** Load existing products from DynamoDB. *)
Definition loadExistingProducts : M World (option error) :=
  fun w =>
  (do result <- db_Scan {| dynamodb.Scan_TableName := Getenv "DYNAMODB_TABLE_NAME" w |};
   match result with
   | inl err => ret (Some err)
   | inr result =>
       (fun w => (Returned tt, set_existingProducts ∅ w));;
       forRange (dynamodb.Items result) recordExisting tt;;
       ret None
   end) w.

Definition containsDollarSign (s : string) : bool := strings.Contains s "$".

(** The function [extractPrice] hands to [ForEach]: it assigns the
    variables [price] and [priceFound] of [extractPrice]. *)
Definition priceCallback (vars : string * bool) (el : colly.HTMLElement) : string * bool :=
  let '(price, priceFound) := vars in
  if negb (colly.Text el =? "")%string && containsDollarSign (colly.Text el)
  then (colly.Text el, true)
  else (price, priceFound).

(** extractPrice finds the price in the HTML element that contains a
    dollar sign: every [<p>] below [e] is visited, and each one holding a
    dollar sign assigns [price]. *)
Definition extractPrice (e : colly.HTMLElement) : string :=
  let '(price, priceFound) :=
    fold_left priceCallback (colly.ForEach e "p") ("", false) in
  if negb priceFound then "N/A" else price.

(** Extract SKU from the URL if it exists. *)
Definition extractSku (e : colly.HTMLElement) : string :=
  let sku := "" in
  let skuIndex := String.length (url.String_ (colly.URL (colly.Request e))) in
  if (0 <? skuIndex)%nat then
    if negb (url.Get (url.Query (colly.URL (colly.Request e))) "sku" =? "")%string
    then url.Get (url.Query (colly.URL (colly.Request e))) "sku"
    else sku
  else "N/A".

Definition attrS (s : string) : dynamodb.AttributeValue := {| dynamodb.S_ := Some s |}.

(** storeProduct stores a new product entry in DynamoDB. *)
Definition storeProduct (productInfo : ProductInfo) : M World (option error) :=
  fun w =>
    db_PutItem
      {| dynamodb.TableName := Getenv "DYNAMODB_TABLE_NAME" w;
         dynamodb.Item :=
           <["Id" := attrS (Id productInfo)]>
           (<["Name" := attrS (Name productInfo)]>
           (<["Price" := attrS (Price productInfo)]>
           (<["GearShopUrl" := attrS (URL productInfo)]>
           (<["DateIndexed" := attrS (now w)]> ∅)))) |} w.

(** [m[key]] on a [map[string]bool]: [false] for a missing key. *)
Definition index (m : gmap string bool) (key : string) : bool := default false (m !! key).

(** The two slices the [OnHTML] callback of [Handler] appends to. *)
Record Found := {
  allProducts : list ProductInfo;
  discoveredProducts : list ProductInfo
}.

(** The [OnHTML] callback of [Handler]. *)
Definition onHTML (e : colly.HTMLElement) (f : Found) : M World Found :=
  let url := colly.Attr e "href" in
  let parts := strings.Split url "/" in
  let id := if (0 <? length parts)%nat then List.last parts "" else "" in
  let name := colly.ChildText e "p.rivian-css-1vv3rb5" in
  let price := extractPrice e in
  let sku := extractSku e in
  if negb (id =? "")%string && negb (name =? "")%string
     && negb (url =? "")%string && negb (price =? "")%string
  then
    let productInfo := {| Id := id; Name := name; SKU := sku; Price := price; URL := url |} in
    let allProducts' := allProducts f ++ [productInfo] in
    fun w =>
      if index (existingProducts w) (Id productInfo)
      then ret {| allProducts := allProducts'; discoveredProducts := discoveredProducts f |} w
      else
        (let discoveredProducts' := discoveredProducts f ++ [productInfo] in
         do err <- storeProduct productInfo;
         match err with
         | Some err =>
             log_Print ("Failed to store product " +:+ Id productInfo +:+ ": " +:+ err)
         | None =>
             log_Print ("Successfully indexed new product " +:+ Id productInfo)
         end;;
         ret {| allProducts := allProducts'; discoveredProducts := discoveredProducts' |}) w
  else ret f.

(** [c.Visit(u)] with [callback] registered by [c.OnHTML]: a failed fetch
    returns its error without running the callback; otherwise the callback
    runs on every matching element in document order. *)
Definition Visit (u : string) (callback : colly.HTMLElement -> Found -> M World Found)
    (f : Found) : M World (option error * Found) :=
  fun w =>
    let w' := {| env := env w; now := now w; db := db w;
                 existingProducts := existingProducts w; web := web w;
                 visited := visited w ++ [u]; logged := logged w |} in
    match web w u with
    | inl err => (Returned (Some err, f), w')
    | inr elements => (do f' <- forRange elements callback f; ret (None, f')) w'
    end.

Definition zeroResponse : Response :=
  {| Message := ""; NumberDiscovered := 0; NumberIndexed := 0 |}.

Section Handler.

(** [json.Marshal] on a slice of [ProductInfo]. *)
Variable json_Marshal : list ProductInfo -> error + string.

(** Handler function for AWS Lambda. *)
Definition Handler : M World (Response * option error) :=
  do err <- loadExistingProducts;
  match err with
  | Some err => log_Fatal ("Failed to load existing products: " +:+ err)
  | None =>
      do (err, found) <-
        Visit "https://rivian.com/gear-shop" onHTML
          {| allProducts := []; discoveredProducts := [] |};
      match err with
      | Some err =>
          log_Print ("Error visiting Rivian Gear Shop: " +:+ err);;
          ret (zeroResponse, Some err)
      | None =>
          match json_Marshal (allProducts found) with
          | inl err =>
              log_Print ("Error marshaling SKU data: " +:+ err);;
              ret (zeroResponse, Some err)
          | inr skuJSON =>
              log_Print ("Found " +:+ fmt.d (Z.of_nat (length (allProducts found)))
                         +:+ " total product listings");;
              if (6 * 1024 * 1024 <? Z.of_nat (String.length skuJSON))%Z
              then
                log_Print "Response payload exceeds 6 MB";;
                ret (zeroResponse, Some "response payload too large")
              else
                let message :=
                  "Indexed " +:+ fmt.d (Z.of_nat (length (discoveredProducts found)))
                  +:+ " new product listings" in
                ret ({| Message := message;
                        NumberDiscovered := Z.of_nat (length (allProducts found));
                        NumberIndexed := Z.of_nat (length (discoveredProducts found)) |},
                     None)
          end
      end
  end.

End Handler.

(** *** Notions used to state the properties of the scrapper *)

(** The id the callback derives from an [href] (lines 150-154). *)
Definition idOf (href : string) : string :=
  let parts := strings.Split href "/" in
  if (0 <? length parts)%nat then List.last parts "" else "".

(** The guard of the callback (line 163). *)
Definition complete (e : colly.HTMLElement) : bool :=
  negb (idOf (colly.Attr e "href") =? "")%string
  && negb (colly.ChildText e "p.rivian-css-1vv3rb5" =? "")%string
  && negb (colly.Attr e "href" =? "")%string
  && negb (extractPrice e =? "")%string.

(** The product the callback builds from an element (line 164). *)
Definition productOf (e : colly.HTMLElement) : ProductInfo :=
  {| Id := idOf (colly.Attr e "href");
     Name := colly.ChildText e "p.rivian-css-1vv3rb5";
     SKU := extractSku e;
     Price := extractPrice e;
     URL := colly.Attr e "href" |}.

(** The part of the guard that reads id, name and url. *)
Definition hasIdNameUrl (e : colly.HTMLElement) : bool :=
  negb (idOf (colly.Attr e "href") =? "")%string
  && negb (colly.ChildText e "p.rivian-css-1vv3rb5" =? "")%string
  && negb (colly.Attr e "href" =? "")%string.

(** A paragraph that [extractPrice] takes for a price. *)
Definition pricey (el : colly.HTMLElement) : bool := containsDollarSign (colly.Text el).

(** The products of the elements that pass the guard, in document order. *)
Definition candidates (elements : list colly.HTMLElement) : list ProductInfo :=
  map productOf (List.filter complete elements).

(** Membership in the known set, as the callback tests it. *)
Definition known (w : World) (productInfo : ProductInfo) : bool :=
  index (existingProducts w) (Id productInfo).

(** The candidates the callback treats as new. *)
Definition newOnes (w : World) (elements : list colly.HTMLElement) : list ProductInfo :=
  List.filter (fun productInfo => negb (known w productInfo)) (candidates elements).

(** The write of one new product and the log line on its result (lines
    173-177), and the same for a batch, in order. *)
Definition persist (productInfo : ProductInfo) : M World unit :=
  do err <- storeProduct productInfo;
  match err with
  | Some err => log_Print ("Failed to store product " +:+ Id productInfo +:+ ": " +:+ err)
  | None => log_Print ("Successfully indexed new product " +:+ Id productInfo)
  end.

Definition persistAll (batch : list ProductInfo) (w : World) : World :=
  fold_left (fun w productInfo => snd (persist productInfo w)) batch w.

(** The request [storeProduct] sends for a product. *)
Definition putRequest (w : World) (productInfo : ProductInfo) : dynamodb.Request :=
  dynamodb.PutItemRequest
    {| dynamodb.TableName := Getenv "DYNAMODB_TABLE_NAME" w;
       dynamodb.Item :=
         <["Id" := attrS (Id productInfo)]>
         (<["Name" := attrS (Name productInfo)]>
         (<["Price" := attrS (Price productInfo)]>
         (<["GearShopUrl" := attrS (URL productInfo)]>
         (<["DateIndexed" := attrS (now w)]> ∅)))) |}.

(** The known set [loadExistingProducts] builds from the scanned items. *)
Definition keysOf (items : list (gmap string dynamodb.AttributeValue)) (m : gmap string bool)
  : gmap string bool :=
  fold_left
    (fun m item =>
       match item !! "Id" with
       | Some {| dynamodb.S_ := Some s |} => <[s := true]> m
       | _ => m
       end)
    items m.

(** The world after a successful [loadExistingProducts]. *)
Definition loaded (w : World) : World :=
  {| env := env w; now := now w;
     db := {| dynamodb.table := dynamodb.table (db w);
              dynamodb.faults := tail (dynamodb.faults (db w));
              dynamodb.requests :=
                dynamodb.requests (db w)
                ++ [dynamodb.ScanRequest
                      {| dynamodb.Scan_TableName := Getenv "DYNAMODB_TABLE_NAME" w |}] |};
     existingProducts := keysOf (dynamodb.table (db w)) ∅;
     web := web w; visited := visited w; logged := logged w |}.

(** The page the handler visits. *)
Definition listing : string := "https://rivian.com/gear-shop".

(** The world once a URL has been fetched, and once a line has been logged. *)
Definition visiting (u : string) (w : World) : World :=
  {| env := env w; now := now w; db := db w; existingProducts := existingProducts w;
     web := web w; visited := visited w ++ [u]; logged := logged w |}.

Definition logging (line : string) (w : World) : World := snd (log_Print line w).

(** The summary of a run that found [found] (lines 207-208). *)
Definition summary (found : Found) : Response :=
  {| Message := "Indexed " +:+ fmt.d (Z.of_nat (length (discoveredProducts found)))
                +:+ " new product listings";
     NumberDiscovered := Z.of_nat (length (allProducts found));
     NumberIndexed := Z.of_nat (length (discoveredProducts found)) |}.

(** The writes the service has accepted or refused so far are the
    [PutItem] requests among all requests. *)
Definition isPut (r : dynamodb.Request) : bool :=
  match r with dynamodb.PutItemRequest _ => true | dynamodb.ScanRequest _ => false end.

(** The scan of the world is refused. *)
Definition scanFails (w : World) (err : error) : Prop :=
  exists script, dynamodb.faults (db w) = Some err :: script.

(** A product id has an item in the table. *)
Definition stored (id : string) (t : list (gmap string dynamodb.AttributeValue)) : Prop :=
  exists item, In item t /\ item !! "Id" = Some (attrS id).

(** Every item of the table that has an ["Id"] has a string there. *)
Definition stringKeys (t : list (gmap string dynamodb.AttributeValue)) : Prop :=
  forall item attr, In item t -> item !! "Id" = Some attr -> exists s, attr = attrS s.

(** The products a run is to write: the new ones of the listing page, none
    when the page cannot be fetched. *)
Definition toIndex (w : World) : list ProductInfo :=
  match web w listing with
  | inl _ => []
  | inr elements => newOnes (loaded w) elements
  end.

(** The scan a run sends. *)
Definition scanRequest (w : World) : dynamodb.Request :=
  dynamodb.ScanRequest {| dynamodb.Scan_TableName := Getenv "DYNAMODB_TABLE_NAME" w |}.

(** The service accepts the scan of the world. *)
Definition scanAccepted (w : World) : Prop := forall err, ~ scanFails w err.

End scrapper.

(** ** src/notifier/main.go and its two SES variants *)

Module events.

(** [events.DynamoDBAttributeValue] of aws-lambda-go: a value tagged with
    its DynamoDB type.  An attribute is of type String, or of another type;
    of the latter the handlers only ever see the text [String()] gives for
    it (the value and its type tag, printed in braces), which [AttrOther]
    carries. *)
Inductive DynamoDBAttributeValue : Type :=
| AttrString (s : string)
| AttrOther (shown : string).

(** The zero value, which indexing a Go map yields for a missing key: no
    value, and the first type tag. *)
Definition zeroAttributeValue : DynamoDBAttributeValue := AttrOther "{<nil> 0}".

(** [String()] gives the string of an attribute of type String, and the
    printed form of an attribute of any other type; it never fails. *)
Definition String_ (av : DynamoDBAttributeValue) : string :=
  match av with
  | AttrString s => s
  | AttrOther shown => shown
  end.

Record DynamoDBStreamRecord := { NewImage : gmap string DynamoDBAttributeValue }.

Record DynamoDBEventRecord := {
  EventName : string;
  Change : DynamoDBStreamRecord
}.

Record DynamoDBEvent := { Records : list DynamoDBEventRecord }.

End events.

Module notifier.

Open Scope go_scope.

Record Product := { ID : string }.

Record Response := {
  Message : string;
  Products : list Product
}.

Definition GEAR_SHOP_HOSTNAME : string := "https://rivian.com".

(** The three variants of the notifier differ only in the request that
    carries the notification. *)
Inductive Delivery : Type := SNSPublish | SESTextMail | SESHtmlMail.

Inductive Body : Type := TextBody (data : string) | HtmlBody (data : string).

(** [sns.PublishInput] and [ses.SendEmailInput], as the handlers fill them. *)
Inductive Outbound : Type :=
| Publish (message topicArn subject : string)
| SendEmail (source sourceArn : string) (replyToAddresses bccAddresses : list string)
            (subject : string) (body : Body).

(** What a run of the notifier reads and changes: the environment
    variables, the scripted answers of the messaging service (an error, or
    the MessageId of an accepted request; an exhausted script accepts) and
    the requests sent to it, oldest first. *)
Record World := {
  env : gmap string string;
  answers : list (error + string);
  sent : list Outbound
}.

Definition Getenv (key : string) (w : World) : string := default "" (env w !! key).

Definition isLocal (w : World) : bool :=
  (Getenv "ENVIRONMENT" w =? "local")%string || negb (Getenv "AWS_SAM_LOCAL" w =? "")%string.

(** [snsClient.Publish] and [sesClient.SendEmail]. *)
Definition send (request : Outbound) : M World (error + string) :=
  fun w =>
    let w' := {| env := env w; answers := tail (answers w); sent := sent w ++ [request] |} in
    match answers w with
    | answer :: _ => (Returned answer, w')
    | [] => (Returned (inr "MessageId"), w')
    end.

(** How the body of a loop hands control back. *)
Inductive control : Type :=
| Continue
| Break
| Return (r : Response * option error).

Section Handler.

(** EmailTemplate generates an HTML email template for new product alerts.
    Its result, a fixed HTML page around the product name, the link and the
    referral code, only ever becomes the body of a mail, so the function is
    kept abstract here. *)
Variable EmailTemplate : string -> string -> list string -> Z -> string -> string.

Variable delivery : Delivery.

(** The request of one notification, and the text of the error returned
    when the service refuses it. *)
Definition deliver (name url message : string) : M World (option error) :=
  fun w =>
    let subject := "[Rivian GearShop] New Product Alert" in
    let mail body :=
      let sourceEmail := "Rivian GearShop Notifier <" +:+ Getenv "SOURCE_EMAIL" w +:+ ">" in
      let sourceArn := Getenv "SOURCE_ARN" w in
      let replyToAddresses := strings.Split (Getenv "REPLY_TO_ADDRESSES" w) "," in
      let bccAddresses := strings.Split (Getenv "BCC_ADDRESSES" w) "," in
      SendEmail sourceEmail sourceArn replyToAddresses bccAddresses subject body in
    match delivery with
    | SNSPublish =>
        (do result <- send (Publish message (Getenv "SNS_TOPIC_ARN" w) subject);
         match result with
         | inl err => ret (Some ("failed to publish SNS message: " +:+ err))
         | inr _ => ret None
         end) w
    | SESTextMail =>
        (do result <- send (mail (TextBody message));
         match result with
         | inl err => ret (Some ("failed ses:SendEmailInput request: " +:+ err))
         | inr _ => ret None
         end) w
    | SESHtmlMail =>
        let productImages := [] in
        let referralCode := Getenv "REFERRAL_CODE" w in
        let emailBody :=
          EmailTemplate name (GEAR_SHOP_HOSTNAME +:+ url) productImages 2024%Z referralCode in
        (do result <- send (mail (HtmlBody emailBody));
         match result with
         | inl err => ret (Some ("failed ses:SendEmailInput request: " +:+ err))
         | inr _ => ret None
         end) w
    end.

Definition index (image : gmap string events.DynamoDBAttributeValue) (key : string)
  : events.DynamoDBAttributeValue :=
  default events.zeroAttributeValue (image !! key).

(** The body of the loop of [Handler] over [event.Records]. *)
Definition processRecord (record : events.DynamoDBEventRecord) (products : list Product)
  : M World (control * list Product) :=
  if (events.EventName record =? "INSERT")%string then
    let image := events.NewImage (events.Change record) in
    let id := events.String_ (index image "Id") in
    let name := events.String_ (index image "Name") in
    let price := events.String_ (index image "Price") in
    let url := events.String_ (index image "GearShopUrl") in
    if (id =? "")%string && (name =? "")%string && (url =? "")%string
    then ret (Break, products)
    else
      let products := products ++ [{| ID := id |}] in
      let message :=
        "New Rivian Gear Shop product added: " +:+ name +:+ ", Url: "
        +:+ GEAR_SHOP_HOSTNAME +:+ url +:+ ", Price: " +:+ price in
      fun w =>
        if isLocal w then ret (Break, products) w
        else
          (do err <- deliver name url message;
           match err with
           | Some err => ret (Return ({| Message := ""; Products := [] |}, Some err), products)
           | None => ret (Continue, products)
           end) w
  else ret (Continue, products).

(** [for _, record := range event.Records]: the products collected when
    the loop is left by its end or by [break], or what a [return] inside it
    returns. *)
Fixpoint rangeRecords (records : list events.DynamoDBEventRecord) (products : list Product)
  : M World (list Product + Response * option error) :=
  match records with
  | [] => ret (inl products)
  | record :: rest =>
      do (c, products) <- processRecord record products;
      match c with
      | Continue => rangeRecords rest products
      | Break => ret (inl products)
      | Return r => ret (inr r)
      end
  end.

(** Handler function for AWS Lambda. *)
Definition Handler (event : events.DynamoDBEvent) : M World (Response * option error) :=
  do r <- rangeRecords (events.Records event) [];
  match r with
  | inr r => ret r
  | inl products =>
      let response :=
        {| Message := "Successfully processed "
                      +:+ fmt.d (Z.of_nat (length (events.Records event)))
                      +:+ " DynamoDB stream event(s)";
           Products := products |} in
      ret (response, None)
  end.

End Handler.

(** *** Notions used to state the properties of the notifier *)

Definition field (record : events.DynamoDBEventRecord) (key : string)
  : option events.DynamoDBAttributeValue :=
  events.NewImage (events.Change record) !! key.

(** An INSERT record whose id, name and url are all the empty string. *)
Definition blankInsert (record : events.DynamoDBEventRecord) : Prop :=
  events.EventName record = "INSERT" /\
  field record "Id" = Some (events.AttrString "") /\
  field record "Name" = Some (events.AttrString "") /\
  field record "GearShopUrl" = Some (events.AttrString "").

(** The message of the response for a batch of [n] records. *)
Definition processed (n : nat) : string :=
  "Successfully processed " +:+ fmt.d (Z.of_nat n) +:+ " DynamoDB stream event(s)".

(** What the handler reads from a record under a key:
    [record.Change.NewImage[key].String()]. *)
Definition read (record : events.DynamoDBEventRecord) (key : string) : string :=
  events.String_ (index (events.NewImage (events.Change record)) key).

(** The string a record holds under a key ([""] when it holds none). *)
Definition text (record : events.DynamoDBEventRecord) (key : string) : string :=
  match field record key with
  | Some (events.AttrString s) => s
  | _ => ""
  end.

Definition isString (record : events.DynamoDBEventRecord) (key : string) : Prop :=
  exists s, field record key = Some (events.AttrString s).

(** A record with the four string attributes the handler reads. *)
Definition stringFields (record : events.DynamoDBEventRecord) : Prop :=
  isString record "Id" /\ isString record "Name" /\ isString record "Price"
  /\ isString record "GearShopUrl".

Definition isInsert (record : events.DynamoDBEventRecord) : bool :=
  (events.EventName record =? "INSERT")%string.

Definition isBlank (record : events.DynamoDBEventRecord) : bool :=
  (text record "Id" =? "")%string && (text record "Name" =? "")%string
  && (text record "GearShopUrl" =? "")%string.

(** A record the loop passes over, or an INSERT it can announce. *)
Definition orderly (record : events.DynamoDBEventRecord) : Prop :=
  isInsert record = false \/ (stringFields record /\ isBlank record = false).

(** The text announcing the product of an INSERT record. *)
Definition announcement (record : events.DynamoDBEventRecord) : string :=
  "New Rivian Gear Shop product added: " +:+ text record "Name" +:+ ", Url: "
  +:+ GEAR_SHOP_HOSTNAME +:+ text record "GearShopUrl" +:+ ", Price: " +:+ text record "Price".

(** The request that carries the notification of a record. *)
Definition notification (EmailTemplate : string -> string -> list string -> Z -> string -> string)
    (delivery : Delivery) (w : World) (record : events.DynamoDBEventRecord) : Outbound :=
  let subject := "[Rivian GearShop] New Product Alert" in
  let mail body :=
    SendEmail ("Rivian GearShop Notifier <" +:+ Getenv "SOURCE_EMAIL" w +:+ ">")
      (Getenv "SOURCE_ARN" w)
      (strings.Split (Getenv "REPLY_TO_ADDRESSES" w) ",")
      (strings.Split (Getenv "BCC_ADDRESSES" w) ",") subject body in
  match delivery with
  | SNSPublish => Publish (announcement record) (Getenv "SNS_TOPIC_ARN" w) subject
  | SESTextMail => mail (TextBody (announcement record))
  | SESHtmlMail =>
      mail (HtmlBody (EmailTemplate (text record "Name")
                        (GEAR_SHOP_HOSTNAME +:+ text record "GearShopUrl") [] 2024%Z
                        (Getenv "REFERRAL_CODE" w)))
  end.

(** The error the handler returns when the service refuses with [err]. *)
Definition refusal (delivery : Delivery) (err : error) : error :=
  match delivery with
  | SNSPublish => "failed to publish SNS message: " +:+ err
  | _ => "failed ses:SendEmailInput request: " +:+ err
  end.

(** The world once a request has been sent. *)
Definition sending (request : Outbound) (w : World) : World :=
  {| env := env w; answers := tail (answers w); sent := sent w ++ [request] |}.

Definition accepts (answer : error + string) : bool :=
  match answer with inr _ => true | inl _ => false end.

(** The product listed for a record. *)
Definition productOf (record : events.DynamoDBEventRecord) : Product :=
  {| ID := text record "Id" |}.

End notifier.

(** ** Fixtures: concrete pages, tables and worlds *)

Module fixtures.

Definition gearShop : colly.request :=
  {| colly.URL := {| url.String_ := "https://rivian.com/gear-shop"; url.Query := ∅ |} |}.

(** A [<p>] with the given text. *)
Definition paragraph (text : string) : colly.HTMLElement :=
  {| colly.Text := text;
     colly.Attr := fun _ => "";
     colly.ChildText := fun _ => "";
     colly.ForEach := fun _ => [];
     colly.Request := gearShop |}.

(** An anchor of the listing: its [href], the text of its name paragraph
    and the texts of the other paragraphs below it, in document order. *)
Definition anchor (href name : string) (others : list string) : colly.HTMLElement :=
  let texts := (if (name =? "")%string then [] else [name]) ++ others in
  {| colly.Text := fold_right String.append "" texts;
     colly.Attr := fun k => if (k =? "href")%string then href else "";
     colly.ChildText := fun sel => if (sel =? "p.rivian-css-1vv3rb5")%string then name else "";
     colly.ForEach := fun sel => if (sel =? "p")%string then map paragraph texts else [];
     colly.Request := gearShop |}.

Definition quote : string := String (ascii_of_nat 34) "".

Definition member (key value : string) : string :=
  quote +:+ key +:+ quote +:+ ":" +:+ quote +:+ value +:+ quote.

Definition object (p : scrapper.ProductInfo) : string :=
  "{" +:+ member "id" (scrapper.Id p) +:+ "," +:+ member "name" (scrapper.Name p)
  +:+ "," +:+ member "sku" (scrapper.SKU p) +:+ "," +:+ member "price" (scrapper.Price p)
  +:+ "," +:+ member "url" (scrapper.URL p) +:+ "}".

(** A JSON encoder for products whose fields need no escaping. *)
Definition marshal (ps : list scrapper.ProductInfo) : error + string :=
  match ps with
  | [] => inr "null"
  | p :: ps' => inr ("[" +:+ fold_left (fun acc q => acc +:+ "," +:+ object q) ps' (object p) +:+ "]")
  end.

(** A world of the scrapper: a table, a fault script and the listing page. *)
Definition world (t : list (gmap string dynamodb.AttributeValue))
    (script : list (option error)) (page : error + list colly.HTMLElement) : scrapper.World :=
  {| scrapper.env := {[ "DYNAMODB_TABLE_NAME" := "products" ]};
     scrapper.now := "2024-10-01T00:00:00Z";
     scrapper.db := {| dynamodb.table := t; dynamodb.faults := script; dynamodb.requests := [] |};
     scrapper.existingProducts := ∅;
     scrapper.web := fun _ => page;
     scrapper.visited := [];
     scrapper.logged := [] |}.

Definition emptyFound : scrapper.Found :=
  {| scrapper.allProducts := []; scrapper.discoveredProducts := [] |}.

(** A world whose known set has been loaded already. *)
Definition knowing (ids : list string) (page : error + list colly.HTMLElement)
  : scrapper.World :=
  scrapper.set_existingProducts (fold_right (fun id m => <[id := true]> m) ∅ ids)
    (world [] [] page).

Definition trailHat : colly.HTMLElement := anchor "/products/abc123" "Trail Hat" ["$35.00"].
Definition campMug : colly.HTMLElement := anchor "/products/xyz999" "Camp Mug" ["$18.00"].

Definition trailHatProduct : scrapper.ProductInfo :=
  {| scrapper.Id := "abc123"; scrapper.Name := "Trail Hat"; scrapper.SKU := "";
     scrapper.Price := "$35.00"; scrapper.URL := "/products/abc123" |}.

Definition campMugProduct : scrapper.ProductInfo :=
  {| scrapper.Id := "xyz999"; scrapper.Name := "Camp Mug"; scrapper.SKU := "";
     scrapper.Price := "$18.00"; scrapper.URL := "/products/xyz999" |}.

(** An anchor with a name but an empty [href]. *)
Definition nameOnly : colly.HTMLElement := anchor "" "Trail Hat" ["$35.00"].

(** An anchor whose [href] ends in a slash. *)
Definition trailingSlash : colly.HTMLElement := anchor "/products/abc123/" "Trail Hat" ["$35.00"].

(** An anchor with a struck-through price before the current one. *)
Definition onSale : colly.HTMLElement := anchor "/products/abc123" "Trail Hat" ["$35.00"; "$29.00"].

(** Records of the table's stream. *)
Definition insert (id name price url : string) : events.DynamoDBEventRecord :=
  {| events.EventName := "INSERT";
     events.Change :=
       {| events.NewImage :=
            {[ "Id" := events.AttrString id; "Name" := events.AttrString name;
               "Price" := events.AttrString price;
               "GearShopUrl" := events.AttrString url ]} |} |}.

Definition trailHatInsert : events.DynamoDBEventRecord :=
  insert "abc123" "Trail Hat" "$35.00" "/products/abc123".

Definition campMugInsert : events.DynamoDBEventRecord :=
  insert "xyz999" "Camp Mug" "$18.00" "/products/xyz999".

Definition blank : events.DynamoDBEventRecord := insert "" "" "$35.00" "".

(** A deployed notifier (not in local mode) whose service accepts. *)
Definition deployed : notifier.World :=
  {| notifier.env := {[ "SNS_TOPIC_ARN" := "arn:aws:sns:us-west-1:000000000000:gear" ]};
     notifier.answers := [];
     notifier.sent := [] |}.

Definition noTemplate : string -> string -> list string -> Z -> string -> string :=
  fun _ _ _ _ _ => "".

(** An anchor seen through a request whose URL carries a [sku]. *)
Definition skuAnchor : colly.HTMLElement :=
  {| colly.Text := "Trail Hat";
     colly.Attr := colly.Attr trailHat;
     colly.ChildText := colly.ChildText trailHat;
     colly.ForEach := colly.ForEach trailHat;
     colly.Request :=
       {| colly.URL := {| url.String_ := "https://rivian.com/gear-shop?sku=TH-01&sku=TH-02";
                          url.Query := {[ "sku" := ["TH-01"; "TH-02"] ]} |} |} |}.

(** An anchor seen through a request with an empty URL. *)
Definition noUrlAnchor : colly.HTMLElement :=
  {| colly.Text := "Trail Hat";
     colly.Attr := colly.Attr trailHat;
     colly.ChildText := colly.ChildText trailHat;
     colly.ForEach := colly.ForEach trailHat;
     colly.Request :=
       {| colly.URL := {| url.String_ := ""; url.Query := {[ "sku" := ["TH-01"] ]} |} |} |}.

Definition trailHatItem : gmap string dynamodb.AttributeValue :=
  {[ "Id" := scrapper.attrS "abc123" ]}.

(** An item whose ["Id"] is not a string. *)
Definition numberedItem : gmap string dynamodb.AttributeValue :=
  {[ "Id" := {| dynamodb.S_ := None |} ]}.

(** A text of [n] bytes, and an encoder that answers with 6 MiB and one byte. *)
Definition filler (n : N) : string := N.iter n (String "x") "".

Definition hugeMarshal (ps : list scrapper.ProductInfo) : error + string :=
  inr (filler 6291457).

(** A blank INSERT record that has no price at all. *)
Definition blankWithoutPrice : events.DynamoDBEventRecord :=
  {| events.EventName := "INSERT";
     events.Change :=
       {| events.NewImage :=
            {[ "Id" := events.AttrString ""; "Name" := events.AttrString "";
               "GearShopUrl" := events.AttrString "" ]} |} |}.

(** An INSERT record whose image is empty. *)
Definition bareInsert : events.DynamoDBEventRecord :=
  {| events.EventName := "INSERT"; events.Change := {| events.NewImage := ∅ |} |}.

Definition modify : events.DynamoDBEventRecord :=
  {| events.EventName := "MODIFY"; events.Change := {| events.NewImage := ∅ |} |}.



End fixtures.

(* ===================================================================== *)
(** * Part II: properties                                                 *)
(* ===================================================================== *)

Example split_abc : strings.Split "/products/abc123" "/" = [""; "products"; "abc123"].
Proof. reflexivity. Qed.
Example split_trailing : strings.Split "/products/abc123/" "/" = [""; "products"; "abc123"; ""].
Proof. reflexivity. Qed.
Example split_empty : strings.Split "" "/" = [""].
Proof. reflexivity. Qed.
Example split_long : strings.Split "a--b-c--" "--" = ["a"; "b-c"; ""].
Proof. reflexivity. Qed.
Example contains1 : strings.Contains "Price: $35.00" "$" = true.
Proof. reflexivity. Qed.
Example contains2 : strings.Contains "Trail Hat" "$" = false.
Proof. reflexivity. Qed.
Example d0 : fmt.d 0 = "0" /\ fmt.d 12 = "12".
Proof. split; reflexivity. Qed.

Example scenarioA :
  scrapper.productOf fixtures.trailHat =
  {| scrapper.Id := "abc123"; scrapper.Name := "Trail Hat"; scrapper.SKU := "";
     scrapper.Price := "$35.00"; scrapper.URL := "/products/abc123" |}.
Proof. reflexivity. Qed.

Example scenarioB_run :
  fst (scrapper.Handler fixtures.marshal
         (fixtures.world [ {[ "Id" := scrapper.attrS "abc123" ]} ] []
            (inr [fixtures.trailHat; fixtures.campMug]))) =
  Returned ({| scrapper.Message := "Indexed 1 new product listings";
               scrapper.NumberDiscovered := 2; scrapper.NumberIndexed := 1 |}, None).
Proof. vm_compute. reflexivity. Qed.

(** ** The scrapper: the callback and the visit *)

Section ScrapperFacts.

Import scrapper.

Lemma persist_result productInfo w : fst (persist productInfo w) = Returned tt.
Proof.
  unfold persist, bind, storeProduct, db_PutItem, log_Print.
  destruct (dynamodb.PutItem _ _) as [[err|] d]; reflexivity.
Qed.

Lemma persist_run productInfo w : persist productInfo w = (Returned tt, snd (persist productInfo w)).
Proof.
  pose proof (persist_result productInfo w) as H.
  destruct (persist productInfo w) as [r w']. simpl in *. now subst.
Qed.

(** The callback, case by case. *)
Lemma onHTML_unfold e f w :
  onHTML e f w =
  if complete e then
    if known w (productOf e) then
      (Returned {| allProducts := allProducts f ++ [productOf e];
                   discoveredProducts := discoveredProducts f |}, w)
    else
      (Returned {| allProducts := allProducts f ++ [productOf e];
                   discoveredProducts := discoveredProducts f ++ [productOf e] |},
       snd (persist (productOf e) w))
  else (Returned f, w).
Proof.
  unfold onHTML, complete, known, idOf.
  destruct (_ && _ && _ && _); [|reflexivity].
  fold (idOf (colly.Attr e "href")). fold (productOf e).
  destruct (index _ _); [reflexivity|].
  unfold persist, bind, storeProduct, db_PutItem, log_Print.
  destruct (dynamodb.PutItem _ _) as [[err|] d]; reflexivity.
Qed.

(** *** One write, and a batch of writes *)

Lemma persist_existingProducts productInfo w :
  existingProducts (snd (persist productInfo w)) = existingProducts w.
Proof.
  unfold persist, bind, storeProduct, db_PutItem, log_Print.
  destruct (dynamodb.PutItem _ _) as [[err|] d]; reflexivity.
Qed.

Lemma persist_frame productInfo w :
  let w' := snd (persist productInfo w) in
  env w' = env w /\ now w' = now w /\ web w' = web w /\ visited w' = visited w.
Proof.
  unfold persist, bind, storeProduct, db_PutItem, log_Print.
  destruct (dynamodb.PutItem _ _) as [[err|] d]; simpl; auto.
Qed.

Lemma persist_requests productInfo w :
  dynamodb.requests (db (snd (persist productInfo w))) =
  dynamodb.requests (db w) ++ [putRequest w productInfo].
Proof.
  unfold persist, bind, storeProduct, db_PutItem, log_Print, dynamodb.PutItem.
  destruct (dynamodb.faults (db w)) as [|[err|] script]; reflexivity.
Qed.

Lemma persist_faults productInfo w :
  dynamodb.faults (db (snd (persist productInfo w))) = tail (dynamodb.faults (db w)).
Proof.
  unfold persist, bind, storeProduct, db_PutItem, log_Print, dynamodb.PutItem.
  destruct (dynamodb.faults (db w)) as [|[err|] script]; reflexivity.
Qed.

(** A refused write leaves the table as it was and logs the failure. *)
Lemma persist_refused productInfo w err script :
  dynamodb.faults (db w) = Some err :: script ->
  dynamodb.table (db (snd (persist productInfo w))) = dynamodb.table (db w) /\
  logged (snd (persist productInfo w)) =
    logged w ++ ["Failed to store product " +:+ Id productInfo +:+ ": " +:+ err].
Proof.
  intros Hf.
  unfold persist, bind, storeProduct, db_PutItem, log_Print, dynamodb.PutItem.
  rewrite Hf. split; reflexivity.
Qed.

(** An accepted write puts the product under its id. *)
Lemma persist_accepted productInfo w :
  (forall err script, dynamodb.faults (db w) <> Some err :: script) ->
  stored (Id productInfo) (dynamodb.table (db (snd (persist productInfo w)))).
Proof.
  intros Hf.
  unfold persist, bind, storeProduct, db_PutItem, log_Print, dynamodb.PutItem.
  destruct (dynamodb.faults (db w)) as [|[err|] script] eqn:E;
    [| exfalso; eapply Hf; reflexivity |]; simpl;
    (eexists; split; [apply in_or_app; right; left; reflexivity | reflexivity]).
Qed.

(** No write, accepted or refused, removes an id from the table. *)
Lemma persist_keeps id productInfo w :
  stored id (dynamodb.table (db w)) ->
  stored id (dynamodb.table (db (snd (persist productInfo w)))).
Proof.
  intros (item & Hin & Hid).
  unfold persist, bind, storeProduct, db_PutItem, log_Print, dynamodb.PutItem.
  set (new := <["Id" := attrS (Id productInfo)]> _).
  destruct (dynamodb.faults (db w)) as [|[err|] script]; simpl;
    try (exists item; split; [exact Hin | exact Hid]).
  - destruct (dynamodb.sameKey item new) eqn:Hk.
    + exists new. split; [apply in_or_app; right; left; reflexivity|].
      unfold dynamodb.sameKey in Hk. apply bool_decide_eq_true in Hk.
      rewrite <- Hk. exact Hid.
    + exists item. split; [|exact Hid].
      apply in_or_app. left. apply filter_In. split; [exact Hin|]. now rewrite Hk.
  - destruct (dynamodb.sameKey item new) eqn:Hk.
    + exists new. split; [apply in_or_app; right; left; reflexivity|].
      unfold dynamodb.sameKey in Hk. apply bool_decide_eq_true in Hk.
      rewrite <- Hk. exact Hid.
    + exists item. split; [|exact Hid].
      apply in_or_app. left. apply filter_In. split; [exact Hin|]. now rewrite Hk.
Qed.

Lemma persist_stringKeys productInfo w :
  stringKeys (dynamodb.table (db w)) ->
  stringKeys (dynamodb.table (db (snd (persist productInfo w)))).
Proof.
  intros Hwf item attr.
  unfold persist, bind, storeProduct, db_PutItem, log_Print, dynamodb.PutItem.
  destruct (dynamodb.faults (db w)) as [|[err|] script]; simpl; try apply Hwf;
    (intros Hin Hid; apply in_app_or in Hin as [Hin|[<-|[]]];
     [ apply filter_In in Hin as [Hin _]; eapply Hwf; eauto
     | rewrite lookup_insert_eq in Hid; injection Hid as <-; eexists; reflexivity ]).
Qed.

Lemma persistAll_cons productInfo batch w :
  persistAll (productInfo :: batch) w = persistAll batch (snd (persist productInfo w)).
Proof. reflexivity. Qed.

Lemma persistAll_existingProducts batch : forall w,
  existingProducts (persistAll batch w) = existingProducts w.
Proof.
  induction batch as [|p batch IH]; intros w; [reflexivity|].
  rewrite persistAll_cons, IH. apply persist_existingProducts.
Qed.

Lemma persistAll_frame batch : forall w,
  let w' := persistAll batch w in
  env w' = env w /\ now w' = now w /\ web w' = web w /\ visited w' = visited w.
Proof.
  induction batch as [|p batch IH]; intros w; [simpl; auto|].
  rewrite persistAll_cons.
  destruct (IH (snd (persist p w))) as (H1 & H2 & H3 & H4).
  destruct (persist_frame p w) as (G1 & G2 & G3 & G4).
  simpl in *. repeat split; congruence.
Qed.

Lemma putRequest_frame w w' productInfo :
  env w' = env w -> now w' = now w -> putRequest w' productInfo = putRequest w productInfo.
Proof. intros He Hn. unfold putRequest, Getenv. now rewrite He, Hn. Qed.

(** One write is attempted for each product of the batch, in order,
    whatever the service answers. *)
Lemma persistAll_requests batch : forall w,
  dynamodb.requests (db (persistAll batch w)) =
  dynamodb.requests (db w) ++ map (putRequest w) batch.
Proof.
  induction batch as [|p batch IH]; intros w; simpl map.
  - simpl. now rewrite app_nil_r.
  - rewrite persistAll_cons, IH, persist_requests, <- app_assoc. simpl.
    destruct (persist_frame p w) as (He & Hn & _).
    do 2 f_equal. apply map_ext. intros q. now apply putRequest_frame.
Qed.

Lemma persistAll_keeps id batch : forall w,
  stored id (dynamodb.table (db w)) ->
  stored id (dynamodb.table (db (persistAll batch w))).
Proof.
  induction batch as [|p batch IH]; intros w H; [exact H|].
  rewrite persistAll_cons. apply IH. now apply persist_keeps.
Qed.

Lemma persistAll_stringKeys batch : forall w,
  stringKeys (dynamodb.table (db w)) ->
  stringKeys (dynamodb.table (db (persistAll batch w))).
Proof.
  induction batch as [|p batch IH]; intros w H; [exact H|].
  rewrite persistAll_cons. apply IH. now apply persist_stringKeys.
Qed.

(** When the service refuses nothing, the whole batch ends up stored. *)
Lemma persistAll_accepted batch : forall w,
  Forall (fun fault => fault = None) (dynamodb.faults (db w)) ->
  forall productInfo, In productInfo batch ->
  stored (Id productInfo) (dynamodb.table (db (persistAll batch w))).
Proof.
  induction batch as [|p batch IH]; intros w Hf q [].
  - subst q. rewrite persistAll_cons. apply persistAll_keeps.
    apply persist_accepted. intros err script E. rewrite E in Hf.
    inversion Hf; discriminate.
  - rewrite persistAll_cons. apply IH; [|assumption].
    rewrite persist_faults. destruct (dynamodb.faults (db w)); [constructor|].
    now inversion Hf.
Qed.

(** *** The loop of the visit *)

Lemma newOnes_frame w w' elements :
  existingProducts w' = existingProducts w -> newOnes w' elements = newOnes w elements.
Proof. intros H. unfold newOnes, known. now rewrite H. Qed.

Lemma candidates_cons e elements :
  candidates (e :: elements) =
  if complete e then productOf e :: candidates elements else candidates elements.
Proof. unfold candidates. simpl. now destruct (complete e). Qed.

(** Running the callback over the matched elements never panics nor
    exits; it appends every candidate to [allProducts], and appends the
    candidates outside the known set to [discoveredProducts] and writes
    them, one after the other. *)
Lemma forRange_onHTML elements : forall f w,
  forRange elements onHTML f w =
  (Returned {| allProducts := allProducts f ++ candidates elements;
               discoveredProducts := discoveredProducts f ++ newOnes w elements |},
   persistAll (newOnes w elements) w).
Proof.
  induction elements as [|e elements IH]; intros f w.
  - simpl. unfold ret, newOnes, candidates. simpl. rewrite !app_nil_r. now destruct f.
  - simpl forRange. unfold bind. rewrite onHTML_unfold.
    unfold newOnes at 1 2. rewrite candidates_cons.
    destruct (complete e); [|apply IH].
    simpl List.filter.
    destruct (known w (productOf e)) eqn:Hk; simpl negb; cbv iota.
    + rewrite IH. simpl. rewrite <- app_assoc. reflexivity.
    + rewrite IH. simpl allProducts. simpl discoveredProducts.
      rewrite <- !app_assoc. simpl app.
      rewrite persistAll_cons.
      rewrite (newOnes_frame w (snd (persist (productOf e) w)))
        by apply persist_existingProducts.
      reflexivity.
Qed.

(** The visit as a whole. *)
Lemma Visit_run u f w :
  Visit u onHTML f w =
  let w' := {| env := env w; now := now w; db := db w;
               existingProducts := existingProducts w; web := web w;
               visited := visited w ++ [u]; logged := logged w |} in
  match web w u with
  | inl err => (Returned (Some err, f), w')
  | inr elements =>
      (Returned (None, {| allProducts := allProducts f ++ candidates elements;
                          discoveredProducts := discoveredProducts f ++ newOnes w elements |}),
       persistAll (newOnes w elements) w')
  end.
Proof.
  unfold Visit. destruct (web w u) as [err|elements]; [reflexivity|].
  simpl. unfold bind. rewrite forRange_onHTML. reflexivity.
Qed.

(** *** Loading the known set *)

Lemma stringKeys_cons item items :
  stringKeys (item :: items) <->
  (forall attr, item !! "Id" = Some attr -> exists s, attr = attrS s) /\ stringKeys items.
Proof.
  unfold stringKeys. split.
  - intros H. split; [intros attr; apply H; now left|].
    intros it attr Hin. apply H. now right.
  - intros [H1 H2] it attr [<-|Hin]; [apply H1 | now apply H2].
Qed.

Lemma forRange_recordExisting items : forall w,
  stringKeys items ->
  forRange items recordExisting tt w =
  (Returned tt, set_existingProducts (keysOf items (existingProducts w)) w).
Proof.
  induction items as [|item items IH]; intros w Hwf.
  - simpl. unfold ret. now destruct w.
  - apply stringKeys_cons in Hwf as [Hitem Hwf].
    simpl forRange. unfold bind, recordExisting at 1. simpl keysOf.
    destruct (item !! "Id") as [attr|] eqn:E.
    + destruct (Hitem attr eq_refl) as [s ->]. simpl.
      rewrite IH by assumption. reflexivity.
    + rewrite IH by assumption. now destruct w.
Qed.

(** A loop over the items that comes to its end has met string keys only. *)
Lemma forRange_recordExisting_returned items : forall w w',
  forRange items recordExisting tt w = (Returned tt, w') -> stringKeys items.
Proof.
  induction items as [|item items IH]; intros w w' H.
  - intros it attr [].
  - apply stringKeys_cons. simpl forRange in H. unfold bind, recordExisting at 1 in H.
    destruct (item !! "Id") as [[[s|]]|] eqn:E; simpl in H; try discriminate.
    + split; [|eapply IH; eassumption].
      intros attr [= <-]. now exists s.
    + split; [|eapply IH; eassumption]. intros attr [=].
Qed.

Lemma index_insert_true (m : gmap string bool) s id :
  index (<[s := true]> m) id = true <-> s = id \/ index m id = true.
Proof.
  unfold index. destruct (decide (s = id)) as [->|Hne].
  - rewrite lookup_insert_eq. simpl. tauto.
  - rewrite lookup_insert_ne by assumption. split; [auto|]. now intros [|].
Qed.

(** The known set holds exactly the ids that have an item in the table. *)
Lemma index_keysOf items : forall m id,
  index (keysOf items m) id = true <-> index m id = true \/ stored id items.
Proof.
  induction items as [|item items IH]; intros m id; simpl keysOf.
  - split; [auto|]. intros [H|(it & [] & _)]. exact H.
  - rewrite IH. unfold stored. split.
    + intros [H|(it & Hin & Hid)].
      * destruct (item !! "Id") as [[[s|]]|] eqn:E; auto.
        apply index_insert_true in H as [->|H]; [|auto].
        right. exists item. split; [now left | exact E].
      * right. exists it. split; [now right | exact Hid].
    + intros [H|(it & [<-|Hin] & Hid)].
      * left. destruct (item !! "Id") as [[[s|]]|]; auto.
        apply index_insert_true. auto.
      * left. rewrite Hid. simpl. apply index_insert_true. auto.
      * right. exists it. auto.
Qed.

Lemma known_loaded w productInfo :
  known (loaded w) productInfo = true <-> stored (Id productInfo) (dynamodb.table (db w)).
Proof.
  unfold known, loaded. simpl. rewrite index_keysOf. unfold index at 1.
  rewrite lookup_empty. simpl. split; [now intros [|] | auto].
Qed.

(** [loadExistingProducts], case by case: a refused scan is returned as an
    error; an accepted one over string keys leaves the known set loaded. *)
Lemma loadExistingProducts_refused w err :
  scanFails w err ->
  loadExistingProducts w =
  (Returned (Some err),
   set_db {| dynamodb.table := dynamodb.table (db w);
             dynamodb.faults := tail (dynamodb.faults (db w));
             dynamodb.requests :=
               dynamodb.requests (db w)
               ++ [dynamodb.ScanRequest
                     {| dynamodb.Scan_TableName := Getenv "DYNAMODB_TABLE_NAME" w |}] |} w).
Proof.
  intros [script Hf].
  unfold loadExistingProducts, bind, db_Scan, dynamodb.Scan. rewrite Hf. reflexivity.
Qed.

Lemma loadExistingProducts_accepted w :
  (forall err, ~ scanFails w err) ->
  stringKeys (dynamodb.table (db w)) ->
  loadExistingProducts w = (Returned None, loaded w).
Proof.
  intros Hf Hwf.
  unfold loadExistingProducts, bind, db_Scan, dynamodb.Scan.
  destruct (dynamodb.faults (db w)) as [|[err|] script] eqn:E;
    [| exfalso; apply (Hf err); now exists script |]; simpl;
    rewrite forRange_recordExisting by exact Hwf; unfold loaded; rewrite E; reflexivity.
Qed.

Lemma loadExistingProducts_returned_nil w w' :
  loadExistingProducts w = (Returned None, w') ->
  (forall err, ~ scanFails w err) /\ stringKeys (dynamodb.table (db w)) /\ w' = loaded w.
Proof.
  intros H.
  assert (Hf : forall err, ~ scanFails w err).
  { intros err [script Hf].
    rewrite (loadExistingProducts_refused w err) in H by now exists script. discriminate. }
  assert (Hwf : stringKeys (dynamodb.table (db w))).
  { revert H. unfold loadExistingProducts, bind, db_Scan, dynamodb.Scan.
    destruct (dynamodb.faults (db w)) as [|[err|] script] eqn:E;
      [| intros; exfalso; apply (Hf err); now exists script |]; simpl;
      destruct (forRange _ recordExisting tt _) as [[[]| |] w1] eqn:F; try discriminate;
      intros _; eapply forRange_recordExisting_returned; exact F. }
  repeat split; try assumption.
  rewrite loadExistingProducts_accepted in H by assumption. congruence.
Qed.

(** *** The handler *)

Section HandlerFacts.

Variable json_Marshal : list ProductInfo -> error + string.

(** A run whose scan is accepted, case by case. *)
Lemma Handler_run w :
  (forall err, ~ scanFails w err) ->
  stringKeys (dynamodb.table (db w)) ->
  Handler json_Marshal w =
  let w1 := visiting listing (loaded w) in
  match web w listing with
  | inl err =>
      (Returned (zeroResponse, Some err),
       logging ("Error visiting Rivian Gear Shop: " +:+ err) w1)
  | inr elements =>
      let found := {| allProducts := candidates elements;
                      discoveredProducts := newOnes (loaded w) elements |} in
      let w2 := persistAll (discoveredProducts found) w1 in
      match json_Marshal (candidates elements) with
      | inl err =>
          (Returned (zeroResponse, Some err), logging ("Error marshaling SKU data: " +:+ err) w2)
      | inr skuJSON =>
          let w3 := logging ("Found " +:+ fmt.d (Z.of_nat (length (candidates elements)))
                             +:+ " total product listings") w2 in
          if (6 * 1024 * 1024 <? Z.of_nat (String.length skuJSON))%Z
          then (Returned (zeroResponse, Some "response payload too large"),
                logging "Response payload exceeds 6 MB" w3)
          else (Returned (summary found, None), w3)
      end
  end.
Proof.
  intros Hf Hwf. unfold Handler. unfold bind at 1.
  rewrite loadExistingProducts_accepted by assumption.
  unfold bind at 1. rewrite Visit_run. simpl.
  change (web (loaded w)) with (web w). change listing with "https://rivian.com/gear-shop".
  destruct (web w "https://rivian.com/gear-shop") as [err|elements]; [reflexivity|].
  simpl. destruct (json_Marshal (candidates elements)) as [err|skuJSON]; [reflexivity|].
  unfold bind. simpl.
  destruct (_ <? _)%Z; reflexivity.
Qed.

(** A run whose scan is refused. *)
Lemma Handler_scan_refused w err :
  scanFails w err ->
  Handler json_Marshal w =
  (Exited 1,
   logging ("Failed to load existing products: " +:+ err)
     (set_db {| dynamodb.table := dynamodb.table (db w);
                dynamodb.faults := tail (dynamodb.faults (db w));
                dynamodb.requests :=
                  dynamodb.requests (db w)
                  ++ [dynamodb.ScanRequest
                        {| dynamodb.Scan_TableName := Getenv "DYNAMODB_TABLE_NAME" w |}] |} w)).
Proof.
  intros Hf. unfold Handler. unfold bind at 1.
  rewrite (loadExistingProducts_refused w err Hf). reflexivity.
Qed.

(** A run that returns without an error had its scan accepted over string
    keys, fetched the page, and returns the summary of what it found. *)
Lemma Handler_returned w response w' :
  Handler json_Marshal w = (Returned (response, None), w') ->
  (forall err, ~ scanFails w err) /\
  stringKeys (dynamodb.table (db w)) /\
  exists elements skuJSON,
    web w listing = inr elements /\
    json_Marshal (candidates elements) = inr skuJSON /\
    (6 * 1024 * 1024 <? Z.of_nat (String.length skuJSON))%Z = false /\
    response = summary {| allProducts := candidates elements;
                          discoveredProducts := newOnes (loaded w) elements |} /\
    dynamodb.table (db w') =
    dynamodb.table (db (persistAll (newOnes (loaded w) elements) (visiting listing (loaded w)))).
Proof.
  intros H.
  assert (Hload : exists w1, loadExistingProducts w = (Returned None, w1)).
  { revert H. unfold Handler. unfold bind at 1.
    destruct (loadExistingProducts w) as [[[err|]| |] w1]; try discriminate.
    intros _. now exists w1. }
  destruct Hload as [w1 Hload].
  apply loadExistingProducts_returned_nil in Hload as (Hf & Hwf & _).
  split; [exact Hf|]. split; [exact Hwf|].
  rewrite Handler_run in H by assumption. simpl in H.
  destruct (web w listing) as [err|elements]; [discriminate|].
  destruct (json_Marshal (candidates elements)) as [err|skuJSON] eqn:Hm; [discriminate|].
  destruct (_ <? _)%Z eqn:Hsize; [discriminate|].
  injection H as <- <-. exists elements, skuJSON. repeat split; auto.
Qed.

End HandlerFacts.

(** ** The extraction of the fields *)

(** *** The id: the text after the last slash *)

Lemma prefix_slash c s : String.prefix "/" (String c s) = bool_decide (c = "/"%char).
Proof.
  change (String.prefix "/" (String c s))
    with (if ascii_dec "/" c then String.prefix "" s else false).
  destruct (ascii_dec "/" c) as [<-|Hne].
  - now destruct s.
  - symmetry. apply bool_decide_eq_false. congruence.
Qed.

Lemma genSplit_not_nil sep s : forall skip cur, strings.genSplit sep skip cur s <> [].
Proof.
  induction s as [|c s IH]; intros skip cur; [easy|].
  cbn [strings.genSplit]. destruct skip; [|apply IH].
  destruct (String.prefix sep (String c s)); [easy | apply IH].
Qed.

Lemma last_cons_not_nil {A} (x : A) l d : l <> [] -> List.last (x :: l) d = List.last l d.
Proof. now destruct l. Qed.

Lemma append_cons c s t : String c s +:+ t = String c (s +:+ t).
Proof. reflexivity. Qed.

Lemma append_empty_l t : "" +:+ t = t.
Proof. reflexivity. Qed.

Lemma append_empty_r s : s +:+ "" = s.
Proof. induction s as [|c s IH]; [reflexivity|]. now rewrite append_cons, IH. Qed.

Lemma append_snoc cur c seg : (cur +:+ String c "") +:+ seg = cur +:+ String c seg.
Proof. induction cur as [|a cur IH]; [reflexivity|]. now rewrite !append_cons, IH. Qed.

(** A string without a slash is a single segment. *)
Lemma genSplit_no_slash seg : forall cur,
  strings.Contains seg "/" = false ->
  strings.genSplit "/" 0 cur seg = [cur +:+ seg].
Proof.
  induction seg as [|c seg IH]; intros cur H.
  - cbn [strings.genSplit]. now rewrite append_empty_r.
  - cbn [strings.Contains] in H. apply orb_false_iff in H as [Hp Hc].
    cbn [strings.genSplit]. rewrite Hp. rewrite IH by exact Hc.
    now rewrite append_snoc.
Qed.

(** The last segment is what follows the last slash. *)
Lemma last_genSplit_after_slash seg d dir : forall cur,
  List.last (strings.genSplit "/" 0 cur (dir +:+ "/" +:+ seg)) d =
  List.last (strings.genSplit "/" 0 "" seg) d.
Proof.
  induction dir as [|c dir IH]; intros cur.
  - rewrite append_empty_l, append_cons, append_empty_l.
    cbn [strings.genSplit]. rewrite prefix_slash.
    rewrite bool_decide_eq_true_2 by reflexivity. simpl Nat.sub.
    apply last_cons_not_nil, genSplit_not_nil.
  - rewrite append_cons. cbn [strings.genSplit]. rewrite prefix_slash.
    destruct (bool_decide (c = "/"%char)).
    + simpl Nat.sub. rewrite last_cons_not_nil by apply genSplit_not_nil. apply IH.
    + apply IH.
Qed.

Lemma idOf_last href : scrapper.idOf href = List.last (strings.Split href "/") "".
Proof.
  unfold scrapper.idOf. simpl.
  destruct (strings.genSplit "/" 0 "" href) eqn:E; [|reflexivity].
  now apply genSplit_not_nil in E.
Qed.

Lemma idOf_no_slash seg : strings.Contains seg "/" = false -> scrapper.idOf seg = seg.
Proof.
  intros H. rewrite idOf_last. unfold strings.Split.
  now rewrite genSplit_no_slash.
Qed.

Lemma idOf_after_slash dir seg :
  strings.Contains seg "/" = false -> scrapper.idOf (dir +:+ "/" +:+ seg) = seg.
Proof.
  intros H. rewrite idOf_last. unfold strings.Split.
  rewrite last_genSplit_after_slash, genSplit_no_slash by exact H. reflexivity.
Qed.

(** *** The price: the last paragraph with a dollar sign *)

Lemma priceCallback_pricey vars el :
  pricey el = true -> priceCallback vars el = (colly.Text el, true).
Proof.
  unfold pricey, priceCallback. destruct vars as [price priceFound]. intros H. rewrite H.
  destruct (colly.Text el); [discriminate H | reflexivity].
Qed.

Lemma priceCallback_plain vars el : pricey el = false -> priceCallback vars el = vars.
Proof.
  unfold pricey, priceCallback. destruct vars as [price priceFound]. intros H. rewrite H.
  now rewrite andb_false_r.
Qed.

Lemma priceScan_plain l : forall vars,
  (forall el, In el l -> pricey el = false) -> fold_left priceCallback l vars = vars.
Proof.
  induction l as [|el l IH]; intros vars H; [reflexivity|].
  simpl. rewrite priceCallback_plain by (apply H; now left).
  apply IH. intros x Hx. apply H. now right.
Qed.

Lemma priceScan_last before el after vars :
  pricey el = true ->
  (forall x, In x after -> pricey x = false) ->
  fold_left priceCallback (before ++ el :: after) vars = (colly.Text el, true).
Proof.
  intros Hel Hafter. rewrite fold_left_app. simpl.
  rewrite priceCallback_pricey by exact Hel. now apply priceScan_plain.
Qed.

(** Whenever the scan has found a price, that price is not empty. *)
Lemma priceScan_nonempty l : forall vars,
  (snd vars = true -> fst vars <> "") ->
  snd (fold_left priceCallback l vars) = true -> fst (fold_left priceCallback l vars) <> "".
Proof.
  induction l as [|el l IH]; intros vars H; [exact H|].
  simpl. apply IH. destruct (pricey el) eqn:E.
  - rewrite priceCallback_pricey by exact E. simpl. intros _ Ht.
    unfold pricey in E. now rewrite Ht in E.
  - now rewrite priceCallback_plain.
Qed.

Lemma extractPrice_nonempty e : extractPrice e <> "".
Proof.
  unfold extractPrice.
  pose proof (priceScan_nonempty (colly.ForEach e "p") ("", false)) as H.
  destruct (fold_left _ _ _) as [price [|]]; simpl in *; [|easy].
  apply H; [discriminate | reflexivity].
Qed.

Lemma complete_hasIdNameUrl e : complete e = hasIdNameUrl e.
Proof.
  unfold complete, hasIdNameUrl.
  destruct (extractPrice e =? "")%string eqn:E; [|apply andb_true_r].
  apply String.eqb_eq in E. now apply extractPrice_nonempty in E.
Qed.

Lemma hasIdNameUrl_spec e :
  hasIdNameUrl e = true <->
  idOf (colly.Attr e "href") <> "" /\ colly.ChildText e "p.rivian-css-1vv3rb5" <> ""
  /\ colly.Attr e "href" <> "".
Proof.
  unfold hasIdNameUrl. rewrite !andb_true_iff, !negb_true_iff, !String.eqb_neq. tauto.
Qed.

(** ** The claims about the scrapper *)

Lemma filter_all_false {A} (p : A -> bool) l :
  (forall x, In x l -> p x = false) -> List.filter p l = [].
Proof.
  induction l as [|x l IH]; intros H; [reflexivity|].
  simpl. rewrite (H x) by now left. apply IH. intros y Hy. apply H. now right.
Qed.

Lemma newOnes_unknown w elements productInfo :
  In productInfo (newOnes w elements) -> known w productInfo = false.
Proof.
  unfold newOnes. intros H. apply filter_In in H as [_ H]. now apply negb_true_iff.
Qed.

Lemma putRequest_id w productInfo input :
  putRequest w productInfo = dynamodb.PutItemRequest input ->
  dynamodb.Item input !! "Id" = Some (attrS (Id productInfo)).
Proof. intros [= <-]. simpl. apply lookup_insert_eq. Qed.

(** C1. Dedup correctness: while the page is visited, a product whose id
    is in the known set is never appended to [discoveredProducts], and no
    [PutItem] is sent for its id, whatever its other fields are. *)
Theorem known_id_is_not_indexed u f w id :
  index (existingProducts w) id = true ->
  match Visit u onHTML f w with
  | (Returned (_, f'), w') =>
      (forall productInfo,
         In productInfo (discoveredProducts f') -> Id productInfo = id ->
         In productInfo (discoveredProducts f)) /\
      (forall input,
         In (dynamodb.PutItemRequest input) (dynamodb.requests (db w')) ->
         dynamodb.Item input !! "Id" = Some (attrS id) ->
         In (dynamodb.PutItemRequest input) (dynamodb.requests (db w)))
  | _ => False
  end.
Proof.
  intros Hknown. rewrite Visit_run. simpl.
  destruct (web w u) as [err|elements]; [split; auto|].
  assert (Hnew : forall q, In q (newOnes w elements) -> Id q <> id).
  { intros q Hq <-. apply newOnes_unknown in Hq. unfold known in Hq. congruence. }
  split.
  - simpl. intros q Hq Hid. apply in_app_or in Hq as [Hq|Hq]; [exact Hq|].
    now apply Hnew in Hq.
  - intros input Hin Hid. rewrite persistAll_requests in Hin. simpl in Hin.
    apply in_app_or in Hin as [Hin|Hin]; [exact Hin|].
    apply in_map_iff in Hin as (q & Hq & Hin). apply putRequest_id in Hq.
    rewrite Hq in Hid. injection Hid as Hid. now apply Hnew in Hin.
Qed.

Lemma known_id_is_not_indexed_witness :
  index (existingProducts
           (fixtures.knowing ["abc123"] (inr [fixtures.trailHat; fixtures.campMug])))
        "abc123" = true /\
  match Visit listing onHTML fixtures.emptyFound
          (fixtures.knowing ["abc123"] (inr [fixtures.trailHat; fixtures.campMug])) with
  | (Returned (_, f'), w') =>
      (forall productInfo,
         In productInfo (discoveredProducts f') -> Id productInfo = "abc123" ->
         In productInfo []) /\
      (forall input,
         In (dynamodb.PutItemRequest input) (dynamodb.requests (db w')) ->
         dynamodb.Item input !! "Id" = Some (attrS "abc123") ->
         In (dynamodb.PutItemRequest input) [])
  | _ => False
  end.
Proof.
  split; [reflexivity|].
  apply (known_id_is_not_indexed listing fixtures.emptyFound
           (fixtures.knowing ["abc123"] (inr [fixtures.trailHat; fixtures.campMug]))
           "abc123").
  reflexivity.
Defined.

(** The visit leaves the known set as it was loaded. *)
Lemma Visit_existingProducts u f w :
  existingProducts (snd (Visit u onHTML f w)) = existingProducts w.
Proof.
  rewrite Visit_run. simpl. destruct (web w u); [reflexivity|].
  simpl. now rewrite persistAll_existingProducts.
Qed.

(** When the service refuses nothing during a run that returns a
    summary, every candidate of the page is in the table afterwards: the
    known ones were there, the new ones have been written. *)
Lemma run_stores_candidates json_Marshal w response w' :
  Handler json_Marshal w = (Returned (response, None), w') ->
  Forall (fun fault => fault = None) (dynamodb.faults (db w)) ->
  forall elements, web w listing = inr elements ->
  forall productInfo, In productInfo (candidates elements) ->
  stored (Id productInfo) (dynamodb.table (db w')).
Proof.
  intros H Hfaults elements Hweb p Hp.
  apply Handler_returned in H as (_ & _ & elements' & skuJSON & Hweb' & _ & _ & _ & ->).
  rewrite Hweb in Hweb'. injection Hweb' as <-.
  destruct (known (loaded w) p) eqn:Hk.
  - apply persistAll_keeps. simpl. now apply known_loaded.
  - apply persistAll_accepted.
    + simpl. destruct (dynamodb.faults (db w)); [constructor | now inversion Hfaults].
    + unfold newOnes. apply filter_In. split; [exact Hp | now rewrite Hk].
Qed.

(** C2. Idempotence: after a run that returned a summary, a second run
    over the table the first one left and over the unchanged page, with
    every candidate of the page in that table, returns a summary with
    [NumberIndexed = 0] (and the same [NumberDiscovered]). *)
Theorem second_run_indexes_nothing json_Marshal w1 response1 w1' w2 :
  Handler json_Marshal w1 = (Returned (response1, None), w1') ->
  dynamodb.table (db w2) = dynamodb.table (db w1') ->
  web w2 = web w1 ->
  (forall err, ~ scanFails w2 err) ->
  (forall elements, web w1 listing = inr elements ->
   forall productInfo, In productInfo (candidates elements) ->
   stored (Id productInfo) (dynamodb.table (db w1'))) ->
  exists response2 w2',
    Handler json_Marshal w2 = (Returned (response2, None), w2') /\
    NumberIndexed response2 = 0%Z /\
    NumberDiscovered response2 = NumberDiscovered response1.
Proof.
  intros H1 Htable Hweb Hscan Hstored.
  apply Handler_returned in H1
    as (_ & Hwf1 & elements & skuJSON & Hweb1 & Hm & Hsize & -> & Htable1).
  assert (Hwf2 : stringKeys (dynamodb.table (db w2))).
  { rewrite Htable, Htable1. apply persistAll_stringKeys. exact Hwf1. }
  assert (Hnone : newOnes (loaded w2) elements = []).
  { apply filter_all_false. intros p Hp. apply negb_false_iff.
    apply known_loaded. rewrite Htable. now apply (Hstored elements). }
  rewrite Handler_run by assumption. cbv zeta.
  rewrite Hweb, Hweb1, Hm, Hsize, Hnone.
  eexists _, _. split; [reflexivity|]. split; reflexivity.
Qed.

Lemma second_run_indexes_nothing_witness :
  let page := inr [fixtures.trailHat; fixtures.campMug] in
  let w1 := fixtures.world [] [] page in
  let w1' := snd (Handler fixtures.marshal w1) in
  let w2 := fixtures.world (dynamodb.table (db w1')) [] page in
  exists response2 w2',
    Handler fixtures.marshal w2 = (Returned (response2, None), w2') /\
    NumberIndexed response2 = 0%Z /\
    NumberDiscovered response2 = 2%Z.
Proof.
  intros page w1 w1' w2.
  assert (H1 : Handler fixtures.marshal w1 =
               (Returned ({| Message := "Indexed 2 new product listings";
                             NumberDiscovered := 2; NumberIndexed := 2 |}, None), w1')).
  { unfold w1'. rewrite (surjective_pairing (Handler fixtures.marshal w1)) at 1.
    f_equal. }
  apply (second_run_indexes_nothing fixtures.marshal w1 _ w1' w2 H1).
  - reflexivity.
  - reflexivity.
  - intros err [script Hs]. discriminate Hs.
  - apply (run_stores_candidates fixtures.marshal w1 _ w1' H1). constructor.
Defined.

(** C3, as the code has it.  The callback appends a candidate to
    [allProducts] exactly when its id, its name and its url are all
    non-empty (the price never is empty); any other element leaves
    [allProducts] as it was.  So an element with empty id, name and url is
    dropped, and so is one with only its name set. *)
Theorem parseable_iff_id_name_url e f w :
  match onHTML e f w with
  | (Returned f', _) =>
      (allProducts f' = allProducts f ++ [productOf e] <->
       idOf (colly.Attr e "href") <> "" /\ colly.ChildText e "p.rivian-css-1vv3rb5" <> ""
       /\ colly.Attr e "href" <> "") /\
      (allProducts f' = allProducts f <->
       ~ (idOf (colly.Attr e "href") <> "" /\ colly.ChildText e "p.rivian-css-1vv3rb5" <> ""
          /\ colly.Attr e "href" <> ""))
  | _ => False
  end.
Proof.
  rewrite onHTML_unfold, complete_hasIdNameUrl.
  pose proof (hasIdNameUrl_spec e) as Hspec.
  assert (Hne : allProducts f ++ [productOf e] <> allProducts f).
  { intros H. apply (f_equal (@length _)) in H. rewrite length_app in H. simpl in H. lia. }
  destruct (hasIdNameUrl e).
  - assert (Hyes : idOf (colly.Attr e "href") <> ""
                   /\ colly.ChildText e "p.rivian-css-1vv3rb5" <> ""
                   /\ colly.Attr e "href" <> "") by now apply Hspec.
    destruct (known w (productOf e)); simpl; (split; split; [auto | auto | | ]; easy).
  - assert (Hno : ~ (idOf (colly.Attr e "href") <> ""
                     /\ colly.ChildText e "p.rivian-css-1vv3rb5" <> ""
                     /\ colly.Attr e "href" <> "")).
    { intros H. apply Hspec in H. discriminate H. }
    split; split; [ intros H; now symmetry in H | easy | auto | auto ].
Qed.

Lemma parseable_iff_id_name_url_witness :
  match onHTML fixtures.nameOnly fixtures.emptyFound (fixtures.world [] [] (inr [])) with
  | (Returned f', _) =>
      (allProducts f' = [] ++ [productOf fixtures.nameOnly] <->
       idOf "" <> "" /\ "Trail Hat" <> "" /\ "" <> "") /\
      (allProducts f' = [] <-> ~ (idOf "" <> "" /\ "Trail Hat" <> "" /\ "" <> ""))
  | _ => False
  end.
Proof.
  exact (parseable_iff_id_name_url fixtures.nameOnly fixtures.emptyFound
           (fixtures.world [] [] (inr []))).
Defined.

(** The number of candidates, which a run reports as [NumberDiscovered],
    counts the elements with id, name and url. *)
Lemma candidates_hasIdNameUrl elements :
  candidates elements = map productOf (List.filter hasIdNameUrl elements).
Proof.
  unfold candidates. f_equal. apply filter_ext. intros e. apply complete_hasIdNameUrl.
Qed.

(** C3, as the specification words it, fails: an element with a name but
    an empty id and an empty url is not appended to [allProducts]. *)
Lemma name_only_is_dropped :
  ~ (forall e f w,
       (idOf (colly.Attr e "href") <> "" \/ colly.ChildText e "p.rivian-css-1vv3rb5" <> ""
        \/ colly.Attr e "href" <> "") ->
       exists f' w', onHTML e f w = (Returned f', w') /\ In (productOf e) (allProducts f')).
Proof.
  intros claim.
  destruct (claim fixtures.nameOnly fixtures.emptyFound (fixtures.world [] [] (inr [])))
    as (f' & w' & Hrun & Hin).
  - right. left. discriminate.
  - vm_compute in Hrun. injection Hrun as <- _. destruct Hin.
Qed.

(** C4, at a run where the first of two writes is refused: the run goes
    on, the second write is made and accepted, and the failure is logged,
    but [NumberIndexed] is 2 although one product only is in the table. *)
Theorem refused_write_is_counted :
  let w := fixtures.world [] [None; Some "ProvisionedThroughputExceededException"]
             (inr [fixtures.trailHat; fixtures.campMug]) in
  fst (Handler fixtures.marshal w) =
    Returned ({| Message := "Indexed 2 new product listings";
                 NumberDiscovered := 2; NumberIndexed := 2 |}, None) /\
  map (fun item => item !! "Id") (dynamodb.table (db (snd (Handler fixtures.marshal w)))) =
    [Some (attrS "xyz999")] /\
  map isPut (dynamodb.requests (db (snd (Handler fixtures.marshal w)))) = [false; true; true] /\
  logged (snd (Handler fixtures.marshal w)) =
    ["Failed to store product abc123: ProvisionedThroughputExceededException";
     "Successfully indexed new product xyz999";
     "Found 2 total product listings"].
Proof. vm_compute. repeat split; reflexivity. Qed.

(** X11. [NumberIndexed] is the number of writes attempted by the run, one
    per new product, whether the service accepted them or not. *)
Lemma NumberIndexed_counts_attempts json_Marshal w response w' :
  Handler json_Marshal w = (Returned (response, None), w') ->
  exists scan batch,
    dynamodb.requests (db w') =
      dynamodb.requests (db w) ++ dynamodb.ScanRequest scan :: map (putRequest w) batch /\
    NumberIndexed response = Z.of_nat (length batch).
Proof.
  intros H.
  pose proof (Handler_returned json_Marshal w response w' H)
    as (Hf & Hwf & elements & skuJSON & Hweb & Hm & Hsize & -> & _).
  rewrite Handler_run in H by assumption. cbv zeta in H.
  rewrite Hweb, Hm, Hsize in H. injection H as <-.
  eexists _, (newOnes (loaded w) elements). split; [|reflexivity].
  unfold logging, log_Print. simpl. rewrite persistAll_requests. simpl.
  rewrite <- app_assoc. simpl. do 2 f_equal.
Qed.

(** C5, as the code has it.  There is no set of ids seen during the run:
    the callback tests the known set loaded at the start, which the visit
    never changes, so every candidate whose id is outside that set is
    appended to [discoveredProducts] and written, an anchor repeating the
    id of an earlier one included. *)
Theorem every_unknown_candidate_is_indexed u w elements :
  web w u = inr elements ->
  let batch :=
    List.filter (fun productInfo => negb (index (existingProducts w) (Id productInfo)))
      (candidates elements) in
  exists w',
    Visit u onHTML {| allProducts := []; discoveredProducts := [] |} w =
      (Returned (None, {| allProducts := candidates elements; discoveredProducts := batch |}),
       w') /\
    dynamodb.requests (db w') = dynamodb.requests (db w) ++ map (putRequest w) batch /\
    existingProducts w' = existingProducts w.
Proof.
  intros Hweb batch. rewrite Visit_run. cbv zeta. rewrite Hweb.
  eexists. split; [reflexivity|]. split.
  - now rewrite persistAll_requests.
  - now rewrite persistAll_existingProducts.
Qed.

Lemma every_unknown_candidate_is_indexed_witness :
  let w := fixtures.world [] [] (inr [fixtures.trailHat; fixtures.trailHat]) in
  exists w',
    Visit listing onHTML {| allProducts := []; discoveredProducts := [] |} w =
      (Returned (None, {| allProducts := [fixtures.trailHatProduct; fixtures.trailHatProduct];
                          discoveredProducts :=
                            [fixtures.trailHatProduct; fixtures.trailHatProduct] |}),
       w') /\
    dynamodb.requests (db w') =
      [putRequest w fixtures.trailHatProduct; putRequest w fixtures.trailHatProduct] /\
    existingProducts w' = ∅.
Proof.
  intros w.
  apply (every_unknown_candidate_is_indexed listing w
           [fixtures.trailHat; fixtures.trailHat]).
  reflexivity.
Defined.

(** C5, as the specification words it, fails: of two anchors for a
    product that is not known, the second one also is appended to
    [discoveredProducts] and written. *)
Lemma duplicate_anchor_is_indexed_twice :
  let w := fixtures.world [] [] (inr [fixtures.trailHat; fixtures.trailHat]) in
  fst (Visit listing onHTML fixtures.emptyFound w) =
    Returned (None, {| allProducts := [fixtures.trailHatProduct; fixtures.trailHatProduct];
                       discoveredProducts :=
                         [fixtures.trailHatProduct; fixtures.trailHatProduct] |}) /\
  dynamodb.requests (db (snd (Visit listing onHTML fixtures.emptyFound w))) =
    [putRequest w fixtures.trailHatProduct; putRequest w fixtures.trailHatProduct].
Proof. vm_compute. split; reflexivity. Qed.

(** C9, as the code has it.  When the scan is refused, the handler logs
    the failure and the process exits with status 1: the handler does not
    return, so there is neither an error value nor a summary; the page has
    not been fetched, and the scan is the only request made. *)
Theorem refused_scan_exits json_Marshal w err :
  scanFails w err ->
  exists w',
    Handler json_Marshal w = (Exited 1, w') /\
    visited w' = visited w /\
    dynamodb.requests (db w') =
      dynamodb.requests (db w)
      ++ [dynamodb.ScanRequest
            {| dynamodb.Scan_TableName := Getenv "DYNAMODB_TABLE_NAME" w |}] /\
    dynamodb.table (db w') = dynamodb.table (db w) /\
    logged w' = logged w ++ ["Failed to load existing products: " +:+ err].
Proof.
  intros Hf. rewrite (Handler_scan_refused json_Marshal w err Hf).
  eexists. split; [reflexivity|]. repeat split.
Qed.

Lemma refused_scan_exits_witness :
  let w := fixtures.world [] [Some "ResourceNotFoundException"] (inr [fixtures.trailHat]) in
  exists w',
    Handler fixtures.marshal w = (Exited 1, w') /\
    visited w' = [] /\
    dynamodb.requests (db w') =
      [dynamodb.ScanRequest {| dynamodb.Scan_TableName := "products" |}] /\
    dynamodb.table (db w') = [] /\
    logged w' = ["Failed to load existing products: ResourceNotFoundException"].
Proof.
  intros w.
  apply (refused_scan_exits fixtures.marshal w "ResourceNotFoundException").
  exists []. reflexivity.
Defined.

(** C9, as the specification words it, fails: after a refused scan the
    handler returns nothing at all, in particular no error. *)
Lemma refused_scan_returns_no_error :
  ~ exists response err w',
      Handler fixtures.marshal
        (fixtures.world [] [Some "ResourceNotFoundException"] (inr [fixtures.trailHat]))
      = (Returned (response, Some err), w').
Proof.
  intros (response & err & w' & H). apply (f_equal fst) in H.
  vm_compute in H. discriminate H.
Qed.

(** *** The claims about the extraction *)

(** [extractSku], case by case: the branch that assigns ["N/A"] is taken
    for an empty request URL only. *)
Lemma extractSku_cases e :
  extractSku e =
  match url.String_ (colly.URL (colly.Request e)) with
  | EmptyString => "N/A"
  | String _ _ => url.Get (url.Query (colly.URL (colly.Request e))) "sku"
  end.
Proof.
  unfold extractSku. destruct (url.String_ _); [reflexivity|]. simpl.
  destruct (url.Get _ "sku") eqn:E; reflexivity.
Qed.

Lemma extractSku_without_parameter e :
  url.String_ (colly.URL (colly.Request e)) <> "" ->
  url.Query (colly.URL (colly.Request e)) !! "sku" = None ->
  extractSku e = "".
Proof.
  intros Hurl Hq. rewrite extractSku_cases.
  destruct (url.String_ _); [easy|]. unfold url.Get. now rewrite Hq.
Qed.

(** C6, at an anchor of the listing page: the request URL is
    [https://rivian.com/gear-shop], which has no [sku] parameter, and the
    sku extracted is the empty string, not ["N/A"]. *)
Theorem missing_sku_is_empty :
  url.String_ (colly.URL (colly.Request fixtures.trailHat)) = "https://rivian.com/gear-shop" /\
  url.Query (colly.URL (colly.Request fixtures.trailHat)) !! "sku" = None /\
  extractSku fixtures.trailHat = "" /\
  SKU (productOf fixtures.trailHat) <> "N/A".
Proof. repeat split. vm_compute. discriminate. Qed.

(** C7, as the code has it.  Of the paragraphs below the anchor whose
    text holds a dollar sign, the last one in document order gives the
    price, verbatim; when there is none, the price is ["N/A"]. *)
Theorem price_is_last_dollar_paragraph e :
  (forall before el after,
     colly.ForEach e "p" = before ++ el :: after ->
     pricey el = true ->
     (forall x, In x after -> pricey x = false) ->
     extractPrice e = colly.Text el) /\
  ((forall x, In x (colly.ForEach e "p") -> pricey x = false) -> extractPrice e = "N/A").
Proof.
  split.
  - intros before el after Hp Hel Hafter. unfold extractPrice.
    rewrite Hp, (priceScan_last before el after _ Hel Hafter). reflexivity.
  - intros Hnone. unfold extractPrice. now rewrite priceScan_plain.
Qed.

Lemma price_is_last_dollar_paragraph_witness :
  extractPrice fixtures.onSale = "$29.00" /\
  extractPrice (fixtures.anchor "/products/abc123" "Trail Hat" []) = "N/A".
Proof.
  split.
  - apply (proj1 (price_is_last_dollar_paragraph fixtures.onSale)
             [fixtures.paragraph "Trail Hat"; fixtures.paragraph "$35.00"]
             (fixtures.paragraph "$29.00") []).
    + reflexivity.
    + reflexivity.
    + intros x [].
  - apply (proj2 (price_is_last_dollar_paragraph
                    (fixtures.anchor "/products/abc123" "Trail Hat" []))).
    intros x [<-|[]]. reflexivity.
Defined.

(** C7, as the specification words it, fails: with two paragraphs holding
    a dollar sign, the price is the text of the second, not of the first. *)
Lemma first_dollar_paragraph_loses :
  map colly.Text (colly.ForEach fixtures.onSale "p") = ["Trail Hat"; "$35.00"; "$29.00"] /\
  extractPrice fixtures.onSale <> "$35.00".
Proof. split; [reflexivity|]. vm_compute. discriminate. Qed.

(** C8, as the code has it.  The id is the last segment of the [href]
    split at its slashes, that is the text after the last slash (the whole
    [href] when it has none), empty or not; for an [href] that ends in a
    slash the id is empty, and the callback drops the element. *)
Theorem id_is_last_segment e seg :
  strings.Contains seg "/" = false ->
  colly.Attr e "href" = seg \/ (exists dir, colly.Attr e "href" = dir +:+ "/" +:+ seg) ->
  Id (productOf e) = seg /\
  (seg = "" -> forall f w, onHTML e f w = (Returned f, w)).
Proof.
  intros Hseg Hhref.
  assert (Hid : idOf (colly.Attr e "href") = seg).
  { destruct Hhref as [->|[dir ->]]; [now apply idOf_no_slash | now apply idOf_after_slash]. }
  split; [exact Hid|].
  intros -> f w. rewrite onHTML_unfold, complete_hasIdNameUrl.
  unfold hasIdNameUrl. now rewrite Hid.
Qed.

Lemma id_is_last_segment_witness :
  (Id (productOf fixtures.trailHat) = "abc123" /\
   ("abc123" = "" -> forall f w, onHTML fixtures.trailHat f w = (Returned f, w))) /\
  (Id (productOf fixtures.trailingSlash) = "" /\
   ("" = "" -> forall f w, onHTML fixtures.trailingSlash f w = (Returned f, w))).
Proof.
  split.
  - apply (id_is_last_segment fixtures.trailHat "abc123"); [reflexivity|].
    right. exists "/products". reflexivity.
  - apply (id_is_last_segment fixtures.trailingSlash ""); [reflexivity|].
    right. exists "/products/abc123". reflexivity.
Defined.

(** C8, as the specification words it, fails: for an [href] that ends in
    a slash the id is not the last non-empty segment but the empty string,
    and no product comes out of the anchor. *)
Lemma trailing_slash_gives_empty_id :
  colly.Attr fixtures.trailingSlash "href" = "/products/abc123/" /\
  Id (productOf fixtures.trailingSlash) <> "abc123" /\
  fst (Visit listing onHTML fixtures.emptyFound
         (fixtures.world [] [] (inr [fixtures.trailingSlash]))) =
    Returned (None, fixtures.emptyFound).
Proof. split; [reflexivity|]. split; [vm_compute; discriminate | reflexivity]. Qed.

End ScrapperFacts.

(** ** The notifier: the loop over the records of the stream *)

Section NotifierFacts.

Import notifier.

Variable EmailTemplate : string -> string -> list string -> Z -> string -> string.
Variable delivery : Delivery.

(** A blank INSERT record leaves the loop, and nothing else happens. *)
Lemma processRecord_blank record products w :
  blankInsert record ->
  processRecord EmailTemplate delivery record products w = (Returned (Break, products), w).
Proof.
  intros (Hname & Hid & Hn & Hurl). unfold field in *.
  unfold processRecord, index. rewrite Hname, Hid, Hn, Hurl. reflexivity.
Qed.

(** The loop over a batch that holds a blank INSERT record is the loop
    over the records before it. *)
Lemma rangeRecords_blank record post pre : forall products w,
  blankInsert record ->
  rangeRecords EmailTemplate delivery (pre ++ record :: post) products w =
  rangeRecords EmailTemplate delivery pre products w.
Proof.
  induction pre as [|x pre IH]; intros products w Hblank.
  - simpl. unfold bind. now rewrite processRecord_blank.
  - simpl. unfold bind.
    destruct (processRecord EmailTemplate delivery x products w) as [[[c ps]| |] w1];
      try reflexivity.
    destruct c; try reflexivity. now apply IH.
Qed.

(** The loop returns from inside only with an error. *)
Lemma rangeRecords_return records : forall products w response err w',
  rangeRecords EmailTemplate delivery records products w
  = (Returned (inr (response, err)), w') ->
  err <> None.
Proof.
  induction records as [|x records IH]; intros products w response err w' H.
  - discriminate H.
  - simpl in H. unfold bind in H.
    destruct (processRecord EmailTemplate delivery x products w) as [[[c ps]| |] w1] eqn:E;
      try discriminate H.
    destruct c; [eapply IH; exact H | discriminate H |].
    injection H as -> _. revert E. unfold processRecord.
    destruct (events.EventName x =? "INSERT")%string; [|discriminate].
    cbv zeta. destruct (_ && _ && _); [intros E; discriminate E|].
    destruct (isLocal w); [intros E; discriminate E|].
    unfold bind.
    destruct (deliver _ _ _ _ _ w) as [[[e|]| |] w2]; intros E; try discriminate E.
    unfold ret in E. injection E as _ <- _ _. easy.
Qed.

End NotifierFacts.

(** C10. In each of the three notifiers, a blank INSERT record (id, name
    and url all empty, whatever it holds for the price) breaks the loop:
    the handler ends in the world that the records before it alone lead
    to, so that record and all later ones send nothing and add no product;
    and when it returns without an error, its message counts all the
    records of the batch. *)
Theorem blank_insert_breaks_the_loop EmailTemplate delivery pre record post w :
  notifier.blankInsert record ->
  let batch := {| events.Records := pre ++ record :: post |} in
  let before := {| events.Records := pre |} in
  snd (notifier.Handler EmailTemplate delivery batch w) =
    snd (notifier.Handler EmailTemplate delivery before w) /\
  match fst (notifier.Handler EmailTemplate delivery before w) with
  | Returned (response, None) =>
      fst (notifier.Handler EmailTemplate delivery batch w) =
        Returned ({| notifier.Message :=
                       notifier.processed (length (pre ++ record :: post));
                     notifier.Products := notifier.Products response |}, None)
  | other => fst (notifier.Handler EmailTemplate delivery batch w) = other
  end.
Proof.
  intros Hblank batch before. unfold notifier.Handler, bind. simpl events.Records.
  rewrite rangeRecords_blank by exact Hblank.
  destruct (notifier.rangeRecords EmailTemplate delivery pre [] w)
    as [[[products|[response err]]| |] w1] eqn:E; simpl; try (split; reflexivity).
  apply rangeRecords_return in E. destruct err; [split; reflexivity | easy].
Qed.

Lemma blank_insert_breaks_the_loop_witness :
  let batch :=
    {| events.Records :=
         [fixtures.trailHatInsert; fixtures.blankWithoutPrice; fixtures.campMugInsert] |} in
  notifier.sent
    (snd (notifier.Handler fixtures.noTemplate notifier.SNSPublish batch fixtures.deployed)) =
    [notifier.Publish
       "New Rivian Gear Shop product added: Trail Hat, Url: https://rivian.com/products/abc123, Price: $35.00"
       "arn:aws:sns:us-west-1:000000000000:gear"
       "[Rivian GearShop] New Product Alert"] /\
  fst (notifier.Handler fixtures.noTemplate notifier.SNSPublish batch fixtures.deployed) =
    Returned ({| notifier.Message := "Successfully processed 3 DynamoDB stream event(s)";
                 notifier.Products := [{| notifier.ID := "abc123" |}] |}, None).
Proof.
  intros batch.
  assert (Hblank : notifier.blankInsert fixtures.blankWithoutPrice).
  { repeat split; reflexivity. }
  destruct (blank_insert_breaks_the_loop fixtures.noTemplate notifier.SNSPublish
              [fixtures.trailHatInsert] fixtures.blankWithoutPrice [fixtures.campMugInsert]
              fixtures.deployed Hblank) as [Hworld Hresult].
  split.
  - unfold batch. simpl app in Hworld. rewrite Hworld. reflexivity.
  - exact Hresult.
Defined.

(** An INSERT record with an empty image is not blank: the handler reads
    the printed zero value under every key, lists it and announces it. *)
Example bare_insert_is_announced :
  notifier.Handler fixtures.noTemplate notifier.SNSPublish
    {| events.Records := [fixtures.bareInsert] |} fixtures.deployed =
  (Returned ({| notifier.Message := "Successfully processed 1 DynamoDB stream event(s)";
                notifier.Products := [{| notifier.ID := "{<nil> 0}" |}] |}, None),
   {| notifier.env := notifier.env fixtures.deployed;
      notifier.answers := [];
      notifier.sent :=
        [notifier.Publish
           "New Rivian Gear Shop product added: {<nil> 0}, Url: https://rivian.com{<nil> 0}, Price: {<nil> 0}"
           "arn:aws:sns:us-west-1:000000000000:gear"
           "[Rivian GearShop] New Product Alert"] |}).
Proof. reflexivity. Qed.

(** The same batch without the blank record notifies both products. *)
Example both_inserts_notify :
  length (notifier.sent
            (snd (notifier.Handler fixtures.noTemplate notifier.SESTextMail
                    {| events.Records := [fixtures.trailHatInsert; fixtures.campMugInsert] |}
                    fixtures.deployed))) = 2.
Proof. reflexivity. Qed.

(* ===================================================================== *)
(** * Part III: further properties of the code                            *)
(* ===================================================================== *)

(** ** The scrapper: extraction *)

Section ExtractionMore.

Import scrapper.

Lemma prefix_char d c s : String.prefix (String d "") (String c s) = bool_decide (c = d).
Proof.
  change (String.prefix (String d "") (String c s))
    with (if ascii_dec d c then String.prefix "" s else false).
  destruct (ascii_dec d c) as [<-|Hne].
  - destruct s; symmetry; now apply bool_decide_eq_true.
  - symmetry. apply bool_decide_eq_false. congruence.
Qed.

(** [strings.Contains] for a needle of one byte. *)
Lemma Contains_char d s :
  strings.Contains s (String d "") = true <-> In d (list_ascii_of_string s).
Proof.
  induction s as [|c s IH]; [simpl; easy|].
  cbn [strings.Contains list_ascii_of_string In]. rewrite prefix_char, orb_true_iff, IH.
  rewrite bool_decide_eq_true. tauto.
Qed.

Lemma Contains_char_append d a b :
  strings.Contains (a +:+ b) (String d "") =
  strings.Contains a (String d "") || strings.Contains b (String d "").
Proof.
  induction a as [|c a IH]; [reflexivity|].
  rewrite append_cons. cbn [strings.Contains]. rewrite !prefix_char, IH. now rewrite orb_assoc.
Qed.

Lemma append_assoc a b c : (a +:+ b) +:+ c = a +:+ (b +:+ c).
Proof. induction a as [|x a IH]; [reflexivity|]. now rewrite !append_cons, IH. Qed.

(** The last segment of a split at slashes has no slash, and the text read
    is that segment, alone or after a slash. *)
Lemma last_genSplit_tail s : forall cur,
  strings.Contains cur "/" = false ->
  let seg := List.last (strings.genSplit "/" 0 cur s) "" in
  strings.Contains seg "/" = false /\
  (cur +:+ s = seg \/ exists dir, cur +:+ s = dir +:+ "/" +:+ seg).
Proof.
  induction s as [|c s IH]; intros cur Hcur; cbv zeta.
  - cbn [strings.genSplit List.last]. split; [exact Hcur|]. left. apply append_empty_r.
  - cbn [strings.genSplit]. rewrite prefix_slash.
    destruct (bool_decide (c = "/"%char)) eqn:Hc.
    + apply bool_decide_eq_true in Hc. subst c. simpl Nat.sub.
      rewrite last_cons_not_nil by apply genSplit_not_nil.
      destruct (IH "" eq_refl) as [Hseg Htail]. split; [exact Hseg|]. right.
      rewrite append_empty_l in Htail. destruct Htail as [Htail|[dir Htail]].
      * exists cur. now rewrite <- Htail.
      * exists (cur +:+ "/" +:+ dir). rewrite Htail at 1.
        now rewrite !append_assoc.
    + apply bool_decide_eq_false in Hc.
      assert (Hcur' : strings.Contains (cur +:+ String c "") "/" = false).
      { rewrite Contains_char_append, Hcur. cbn [strings.Contains]. rewrite prefix_slash.
        now rewrite bool_decide_eq_false_2. }
      destruct (IH _ Hcur') as [Hseg Htail]. split; [exact Hseg|].
      now rewrite append_snoc in Htail.
Qed.

Lemma idOf_slash_free href : strings.Contains (idOf href) "/" = false.
Proof.
  rewrite idOf_last. unfold strings.Split.
  apply (last_genSplit_tail href "" eq_refl).
Qed.

(** X1. The id derived from an [href] never holds a slash, and the
    [href] is that id, alone or behind a directory part and a slash. *)
Theorem idOf_is_the_slash_free_tail href :
  strings.Contains (idOf href) "/" = false /\
  (href = idOf href \/ exists dir, href = dir +:+ "/" +:+ idOf href).
Proof.
  rewrite idOf_last. unfold strings.Split.
  destruct (last_genSplit_tail href "" eq_refl) as [Hseg Htail]. split; [exact Hseg|].
  now rewrite append_empty_l in Htail.
Qed.

(** X2. [containsDollarSign] holds exactly of the texts with a dollar
    byte; in particular not of the empty text. *)
Theorem containsDollarSign_iff_dollar_byte s :
  containsDollarSign s = true <-> In "$"%char (list_ascii_of_string s).
Proof. unfold containsDollarSign. apply Contains_char. Qed.

Lemma priceScan_cases l : forall vars,
  (fold_left priceCallback l vars = vars /\ forall x, In x l -> pricey x = false) \/
  (exists el, In el l /\ pricey el = true /\ fold_left priceCallback l vars = (colly.Text el, true)).
Proof.
  induction l as [|x l IH]; intros vars; [left; split; [reflexivity | intros ? []]|].
  simpl fold_left. destruct (pricey x) eqn:Hx.
  - rewrite priceCallback_pricey by exact Hx.
    destruct (IH (colly.Text x, true)) as [[Hfold Hplain]|(el & Hin & Hel & Hfold)].
    + right. exists x. split; [now left|]. split; [exact Hx | exact Hfold].
    + right. exists el. split; [now right|]. split; [exact Hel | exact Hfold].
  - rewrite priceCallback_plain by exact Hx.
    destruct (IH vars) as [[Hfold Hplain]|(el & Hin & Hel & Hfold)].
    + left. split; [exact Hfold|]. intros y [<-|Hy]; [exact Hx | now apply Hplain].
    + right. exists el. split; [now right|]. split; [exact Hel | exact Hfold].
Qed.

(** X3. The price is either the fallback ["N/A"], when no paragraph below
    the anchor holds a dollar sign, or the unchanged text of one of the
    paragraphs that do; it is never empty. *)
Theorem extractPrice_is_fallback_or_dollar_text e :
  extractPrice e <> "" /\
  ((extractPrice e = "N/A" /\ forall x, In x (colly.ForEach e "p") -> pricey x = false) \/
   (exists el, In el (colly.ForEach e "p") /\ pricey el = true
               /\ extractPrice e = colly.Text el)).
Proof.
  split; [apply extractPrice_nonempty|]. unfold extractPrice.
  destruct (priceScan_cases (colly.ForEach e "p") ("", false))
    as [[Hfold Hplain]|(el & Hin & Hel & Hfold)]; rewrite Hfold.
  - left. split; [reflexivity | exact Hplain].
  - right. exists el. split; [exact Hin|]. split; [exact Hel | reflexivity].
Qed.

(** X4. For a request with a non-empty URL the sku is the first value of
    the [sku] parameter of its query; for a request with an empty URL it
    is ["N/A"], whatever the query holds. *)
Theorem extractSku_reads_first_value e :
  (forall v rest,
     url.String_ (colly.URL (colly.Request e)) <> "" ->
     url.Query (colly.URL (colly.Request e)) !! "sku" = Some (v :: rest) ->
     extractSku e = v) /\
  (url.String_ (colly.URL (colly.Request e)) = "" -> extractSku e = "N/A").
Proof.
  rewrite extractSku_cases. split.
  - intros v rest Hurl Hq. destruct (url.String_ _); [easy|]. unfold url.Get. now rewrite Hq.
  - now intros ->.
Qed.

Lemma extractSku_reads_first_value_witness :
  extractSku fixtures.skuAnchor = "TH-01" /\ extractSku fixtures.noUrlAnchor = "N/A".
Proof.
  split.
  - apply (proj1 (extractSku_reads_first_value fixtures.skuAnchor) "TH-01" ["TH-02"]).
    + discriminate.
    + reflexivity.
  - apply (proj2 (extractSku_reads_first_value fixtures.noUrlAnchor)). reflexivity.
Defined.

End ExtractionMore.

(** ** The scrapper: the known set and the table *)

Section StoreMore.

Import scrapper.

Lemma forRange_app {W A S} (body : A -> S -> M W S) l1 l2 : forall s w,
  forRange (l1 ++ l2) body s w = bind (forRange l1 body s) (forRange l2 body) w.
Proof.
  induction l1 as [|x l1 IH]; intros s w; [reflexivity|].
  simpl. unfold bind. destruct (body x s w) as [[s'| |] w1]; [|reflexivity..].
  rewrite IH. reflexivity.
Qed.

(** What an accepted scan answers in this model. *)
Lemma Scan_accepted input (d0 : dynamodb.DynamoDB) result d :
  dynamodb.Scan input d0 = (inr result, d) ->
  (forall err script, dynamodb.faults d0 <> Some err :: script) /\
  dynamodb.Items result = dynamodb.table d0.
Proof.
  unfold dynamodb.Scan.
  destruct (dynamodb.faults d0) as [|[err|] script]; intros [= <- _];
    split; try reflexivity; intros; discriminate.
Qed.

Lemma scanned_accepted w result d :
  dynamodb.Scan {| dynamodb.Scan_TableName := Getenv "DYNAMODB_TABLE_NAME" w |} (db w)
    = (inr result, d) ->
  scanAccepted w /\ dynamodb.Items result = dynamodb.table (db w).
Proof.
  intros H. apply Scan_accepted in H as [Hf Hitems]. split; [|exact Hitems].
  intros err [script Hs]. now apply (Hf err script).
Qed.

(** X5. When the scan is answered with items whose ["Id"] attributes are
    strings, [loadExistingProducts] returns no error and the known set
    holds exactly the ids of the items the scan returned, whatever it held
    before. *)
Theorem loadExistingProducts_knows_the_scanned_ids w result d :
  dynamodb.Scan {| dynamodb.Scan_TableName := Getenv "DYNAMODB_TABLE_NAME" w |} (db w)
    = (inr result, d) ->
  stringKeys (dynamodb.Items result) ->
  exists w',
    loadExistingProducts w = (Returned None, w') /\
    db w' = d /\
    forall id, index (existingProducts w') id = true <-> stored id (dynamodb.Items result).
Proof.
  intros Hscan Hwf.
  destruct (scanned_accepted w result d Hscan) as [Hacc Hitems]. rewrite Hitems in *.
  exists (loaded w). split; [now apply loadExistingProducts_accepted|]. split.
  - revert Hscan. unfold dynamodb.Scan, loaded. simpl.
    destruct (dynamodb.faults (db w)) as [|[err|] script]; now intros [= _ <-].
  - intros id. unfold loaded. simpl. rewrite index_keysOf. unfold index at 1.
    rewrite lookup_empty. simpl. split; [now intros [|] | auto].
Qed.

Lemma loadExistingProducts_knows_the_scanned_ids_witness :
  let w := set_existingProducts {[ "stale" := true ]}
             (fixtures.world [fixtures.trailHatItem] [] (inr [])) in
  let result := {| dynamodb.Items := [fixtures.trailHatItem] |} in
  let d := {| dynamodb.table := [fixtures.trailHatItem]; dynamodb.faults := [];
              dynamodb.requests := [scanRequest w] |} in
  exists w',
    loadExistingProducts w = (Returned None, w') /\
    db w' = d /\
    forall id, index (existingProducts w') id = true <-> stored id (dynamodb.Items result).
Proof.
  intros w result d. apply (loadExistingProducts_knows_the_scanned_ids w result d).
  - reflexivity.
  - intros item attr [<-|[]] Hid. vm_compute in Hid. injection Hid as <-.
    exists "abc123". reflexivity.
Defined.

Lemma forRange_recordExisting_nil_S item after w :
  item !! "Id" = Some {| dynamodb.S_ := None |} ->
  forRange (item :: after) recordExisting tt w =
  (Panicked "invalid memory address or nil pointer dereference", w).
Proof. intros H. simpl. unfold bind, recordExisting. now rewrite H. Qed.

(** X6. An item whose ["Id"] attribute is not a string (its [S] is nil)
    makes the run panic while the known set is loaded: the items before it
    have been recorded, the page is not fetched and nothing is written. *)
Theorem non_string_id_panics json_Marshal w before item after :
  scanAccepted w ->
  dynamodb.table (db w) = before ++ item :: after ->
  stringKeys before ->
  item !! "Id" = Some {| dynamodb.S_ := None |} ->
  exists msg w',
    Handler json_Marshal w = (Panicked msg, w') /\
    visited w' = visited w /\
    dynamodb.requests (db w') = dynamodb.requests (db w) ++ [scanRequest w] /\
    dynamodb.table (db w') = dynamodb.table (db w) /\
    existingProducts w' = keysOf before ∅.
Proof.
  intros Hscan Htable Hwf Hitem.
  unfold Handler. unfold bind at 1.
  unfold loadExistingProducts, bind, db_Scan, dynamodb.Scan.
  destruct (dynamodb.faults (db w)) as [|[err|] script] eqn:E;
    [| exfalso; apply (Hscan err); now exists script |]; simpl;
    (rewrite Htable, forRange_app; unfold bind;
     rewrite forRange_recordExisting by exact Hwf;
     rewrite forRange_recordExisting_nil_S by exact Hitem;
     eexists _, _; split; [reflexivity|];
     repeat split; simpl; now rewrite ?E, ?Htable).
Qed.

Lemma non_string_id_panics_witness :
  let w := fixtures.world [fixtures.trailHatItem; fixtures.numberedItem] []
             (inr [fixtures.campMug]) in
  exists msg w',
    Handler fixtures.marshal w = (Panicked msg, w') /\
    visited w' = [] /\
    dynamodb.requests (db w') = [] ++ [scanRequest w] /\
    dynamodb.table (db w') = [fixtures.trailHatItem; fixtures.numberedItem] /\
    existingProducts w' = keysOf [fixtures.trailHatItem] ∅.
Proof.
  intros w.
  apply (non_string_id_panics fixtures.marshal w
           [fixtures.trailHatItem] fixtures.numberedItem []).
  - intros err [script Hs]. discriminate Hs.
  - reflexivity.
  - intros item attr [<-|[]] Hid. vm_compute in Hid. injection Hid as <-.
    exists "abc123". reflexivity.
  - reflexivity.
Defined.

End StoreMore.

(** ** The scrapper: whole runs *)

Section RunMore.

Import scrapper.

(** The world a run ends in, for every way the run can go after an
    accepted scan. *)
Lemma Handler_world json_Marshal w :
  scanAccepted w ->
  stringKeys (dynamodb.table (db w)) ->
  let w' := snd (Handler json_Marshal w) in
  db w' = db (persistAll (toIndex w) (visiting listing (loaded w))) /\
  visited w' = visited w ++ [listing] /\
  env w' = env w /\ now w' = now w.
Proof.
  intros Hscan Hwf. cbv zeta. rewrite Handler_run by assumption. cbv zeta. unfold toIndex.
  destruct (web w listing) as [err|elements]; [repeat split|].
  destruct (persistAll_frame (newOnes (loaded w) elements) (visiting listing (loaded w)))
    as (He & Hn & _ & Hv). simpl in He, Hn, Hv.
  destruct (json_Marshal (candidates elements)) as [err|skuJSON]; [now repeat split|].
  destruct (_ <? _)%Z; now repeat split.
Qed.

Lemma toIndex_not_stored w productInfo :
  In productInfo (toIndex w) -> ~ stored (Id productInfo) (dynamodb.table (db w)).
Proof.
  unfold toIndex. destruct (web w listing) as [err|elements]; [intros []|].
  intros Hin Hstored. apply newOnes_unknown in Hin.
  apply known_loaded in Hstored. congruence.
Qed.

Lemma toIndex_complete w productInfo :
  In productInfo (toIndex w) ->
  exists e, productInfo = productOf e /\ hasIdNameUrl e = true.
Proof.
  unfold toIndex. destruct (web w listing) as [err|elements]; [intros []|].
  unfold newOnes. intros Hin. apply filter_In in Hin as [Hin _].
  rewrite candidates_hasIdNameUrl in Hin. apply in_map_iff in Hin as (e & <- & He).
  apply filter_In in He as [_ He]. now exists e.
Qed.

Lemma run_requests json_Marshal w :
  scanAccepted w ->
  stringKeys (dynamodb.table (db w)) ->
  dynamodb.requests (db (snd (Handler json_Marshal w))) =
  dynamodb.requests (db w) ++ scanRequest w :: map (putRequest w) (toIndex w).
Proof.
  intros Hscan Hwf.
  destruct (Handler_world json_Marshal w Hscan Hwf) as (Hdb & _). rewrite Hdb.
  rewrite persistAll_requests. simpl. rewrite <- app_assoc. reflexivity.
Qed.

(** X8. A run sends one scan and then one [PutItem] for each anchor of
    the page, in document order, that has an id, a name and a url and whose
    id is not the id of an item the scan returned; it sends nothing else.
    An id the scan returned is never written, whatever the page says
    about it. *)
Theorem run_writes_what_the_scan_did_not_return json_Marshal w result d elements :
  dynamodb.Scan {| dynamodb.Scan_TableName := Getenv "DYNAMODB_TABLE_NAME" w |} (db w)
    = (inr result, d) ->
  stringKeys (dynamodb.Items result) ->
  web w listing = inr elements ->
  exists knownSet : gmap string bool,
    (forall id, index knownSet id = true <-> stored id (dynamodb.Items result)) /\
    dynamodb.requests (db (snd (Handler json_Marshal w))) =
      dynamodb.requests (db w) ++ scanRequest w
        :: map (putRequest w)
             (List.filter (fun productInfo => negb (index knownSet (Id productInfo)))
                (map productOf (List.filter hasIdNameUrl elements))).
Proof.
  intros Hscan Hwf Hweb.
  destruct (scanned_accepted w result d Hscan) as [Hacc Hitems]. rewrite Hitems in *.
  exists (keysOf (dynamodb.table (db w)) ∅). split.
  - intros id. rewrite index_keysOf. unfold index at 1. rewrite lookup_empty. simpl.
    split; [now intros [|] | auto].
  - rewrite run_requests by assumption. unfold toIndex. rewrite Hweb.
    unfold newOnes. now rewrite candidates_hasIdNameUrl.
Qed.

Lemma run_writes_what_the_scan_did_not_return_witness :
  let elements := [fixtures.trailHat; fixtures.nameOnly; fixtures.campMug] in
  let w := fixtures.world [fixtures.trailHatItem] [] (inr elements) in
  let result := {| dynamodb.Items := [fixtures.trailHatItem] |} in
  let d := {| dynamodb.table := [fixtures.trailHatItem]; dynamodb.faults := [];
              dynamodb.requests := [scanRequest w] |} in
  exists knownSet : gmap string bool,
    (forall id, index knownSet id = true <-> stored id (dynamodb.Items result)) /\
    dynamodb.requests (db (snd (Handler fixtures.marshal w))) =
      dynamodb.requests (db w) ++ scanRequest w
        :: map (putRequest w)
             (List.filter (fun productInfo => negb (index knownSet (Id productInfo)))
                (map productOf (List.filter hasIdNameUrl elements))).
Proof.
  intros elements w result d.
  apply (run_writes_what_the_scan_did_not_return fixtures.marshal w result d elements).
  - reflexivity.
  - intros item attr [<-|[]] Hid. vm_compute in Hid. injection Hid as <-.
    exists "abc123". reflexivity.
  - reflexivity.
Defined.

(** X9. Every item a run writes carries exactly the attributes Id, Name,
    Price, GearShopUrl and DateIndexed (the sku is not among them), goes
    to the table named by DYNAMODB_TABLE_NAME, and has a non-empty id
    without a slash, a non-empty name, price and url, and the time of the
    run as its date. *)
Theorem written_items_are_complete json_Marshal w input :
  scanAccepted w ->
  stringKeys (dynamodb.table (db w)) ->
  In (dynamodb.PutItemRequest input)
     (skipn (length (dynamodb.requests (db w)))
        (dynamodb.requests (db (snd (Handler json_Marshal w))))) ->
  dynamodb.TableName input = Getenv "DYNAMODB_TABLE_NAME" w /\
  exists id name price url,
    dynamodb.Item input =
      <["Id" := attrS id]> (<["Name" := attrS name]> (<["Price" := attrS price]>
        (<["GearShopUrl" := attrS url]> (<["DateIndexed" := attrS (now w)]> ∅)))) /\
    id <> "" /\ strings.Contains id "/" = false /\ name <> "" /\ price <> "" /\ url <> "".
Proof.
  intros Hscan Hwf Hin. rewrite run_requests in Hin by assumption.
  rewrite skipn_app, skipn_all, Nat.sub_diag in Hin. simpl in Hin.
  destruct Hin as [Hin|Hin]; [discriminate Hin|].
  apply in_map_iff in Hin as (p & Hp & Hin). injection Hp as <-. simpl.
  split; [reflexivity|].
  apply toIndex_complete in Hin as (e & -> & He). apply hasIdNameUrl_spec in He as (Hi & Hn & Hu).
  exists (idOf (colly.Attr e "href")), (colly.ChildText e "p.rivian-css-1vv3rb5"),
         (extractPrice e), (colly.Attr e "href").
  split; [reflexivity|]. repeat split; try assumption.
  - apply idOf_slash_free.
  - apply extractPrice_nonempty.
Qed.

Lemma written_items_are_complete_witness :
  let w := fixtures.world [fixtures.trailHatItem] []
             (inr [fixtures.trailHat; fixtures.campMug]) in
  let input :=
    {| dynamodb.TableName := "products";
       dynamodb.Item :=
         <["Id" := attrS "xyz999"]> (<["Name" := attrS "Camp Mug"]>
           (<["Price" := attrS "$18.00"]> (<["GearShopUrl" := attrS "/products/xyz999"]>
             (<["DateIndexed" := attrS "2024-10-01T00:00:00Z"]> ∅)))) |} in
  dynamodb.TableName input = Getenv "DYNAMODB_TABLE_NAME" w /\
  exists id name price url,
    dynamodb.Item input =
      <["Id" := attrS id]> (<["Name" := attrS name]> (<["Price" := attrS price]>
        (<["GearShopUrl" := attrS url]> (<["DateIndexed" := attrS (now w)]> ∅)))) /\
    id <> "" /\ strings.Contains id "/" = false /\ name <> "" /\ price <> "" /\ url <> "".
Proof.
  intros w input. apply (written_items_are_complete fixtures.marshal w input).
  - intros err [script Hs]. discriminate Hs.
  - intros item attr [<-|[]] Hid. vm_compute in Hid. injection Hid as <-.
    exists "abc123". reflexivity.
  - vm_compute. right. left. reflexivity.
Defined.

Lemma persist_keeps_item item productInfo w :
  In item (dynamodb.table (db w)) ->
  item !! "Id" <> Some (attrS (Id productInfo)) ->
  In item (dynamodb.table (db (snd (persist productInfo w)))).
Proof.
  intros Hin Hid.
  unfold persist, bind, storeProduct, db_PutItem, log_Print, dynamodb.PutItem.
  destruct (dynamodb.faults (db w)) as [|[err|] script]; simpl; try exact Hin;
    (apply in_or_app; left; apply filter_In; split; [exact Hin|];
     apply negb_true_iff, bool_decide_eq_false; now rewrite lookup_insert_eq).
Qed.

Lemma persistAll_keeps_item item batch : forall w,
  In item (dynamodb.table (db w)) ->
  (forall productInfo, In productInfo batch -> item !! "Id" <> Some (attrS (Id productInfo))) ->
  In item (dynamodb.table (db (persistAll batch w))).
Proof.
  induction batch as [|p batch IH]; intros w Hin Hid; [exact Hin|].
  rewrite persistAll_cons. apply IH.
  - apply persist_keeps_item; [exact Hin | apply Hid; now left].
  - intros q Hq. apply Hid. now right.
Qed.

(** X10. A run never removes nor replaces an item the scan returned:
    every such item is still in the table, unchanged, when the run ends. *)
Theorem run_keeps_the_scanned_items json_Marshal w result d item :
  dynamodb.Scan {| dynamodb.Scan_TableName := Getenv "DYNAMODB_TABLE_NAME" w |} (db w)
    = (inr result, d) ->
  stringKeys (dynamodb.Items result) ->
  In item (dynamodb.Items result) ->
  In item (dynamodb.table (db (snd (Handler json_Marshal w)))).
Proof.
  intros Hscan Hwf Hin.
  destruct (scanned_accepted w result d Hscan) as [Hacc Hitems]. rewrite Hitems in *.
  destruct (Handler_world json_Marshal w Hacc Hwf) as (Hdb & _). rewrite Hdb.
  apply persistAll_keeps_item; [exact Hin|].
  intros p Hp Hid. apply (toIndex_not_stored w p Hp). now exists item.
Qed.

Lemma run_keeps_the_scanned_items_witness :
  let w := fixtures.world [fixtures.trailHatItem] []
             (inr [fixtures.trailHat; fixtures.campMug]) in
  In fixtures.trailHatItem (dynamodb.table (db (snd (Handler fixtures.marshal w)))).
Proof.
  intros w.
  apply (run_keeps_the_scanned_items fixtures.marshal w
           {| dynamodb.Items := [fixtures.trailHatItem] |}
           {| dynamodb.table := [fixtures.trailHatItem]; dynamodb.faults := [];
              dynamodb.requests := [scanRequest w] |}
           fixtures.trailHatItem).
  - reflexivity.
  - intros item attr [<-|[]] Hid. vm_compute in Hid. injection Hid as <-.
    exists "abc123". reflexivity.
  - now left.
Defined.

Lemma NumberIndexed_counts_attempts_witness :
  let w := fixtures.world [] [None; Some "ProvisionedThroughputExceededException"]
             (inr [fixtures.trailHat; fixtures.campMug]) in
  exists scan batch,
    dynamodb.requests (db (snd (Handler fixtures.marshal w))) =
      dynamodb.requests (db w) ++ dynamodb.ScanRequest scan :: map (putRequest w) batch /\
    NumberIndexed {| Message := "Indexed 2 new product listings";
                     NumberDiscovered := 2; NumberIndexed := 2 |} = Z.of_nat (length batch).
Proof.
  intros w.
  apply (NumberIndexed_counts_attempts fixtures.marshal w _ (snd (Handler fixtures.marshal w))).
  rewrite (surjective_pairing (Handler fixtures.marshal w)) at 1. f_equal.
Defined.

(** X12. In every summary a run returns, [NumberIndexed] is at most
    [NumberDiscovered], which is at most the number of anchors matched on
    the page, and the message spells out [NumberIndexed]. *)
Theorem summary_counts_are_ordered json_Marshal w response w' :
  Handler json_Marshal w = (Returned (response, None), w') ->
  exists elements,
    web w listing = inr elements /\
    (0 <= NumberIndexed response <= NumberDiscovered response)%Z /\
    (NumberDiscovered response <= Z.of_nat (length elements))%Z /\
    Message response = "Indexed " +:+ fmt.d (NumberIndexed response) +:+ " new product listings".
Proof.
  intros H.
  apply Handler_returned in H as (_ & _ & elements & skuJSON & Hweb & _ & _ & -> & _).
  exists elements. split; [exact Hweb|]. simpl.
  pose proof (filter_length_le (fun p => negb (known (loaded w) p)) (candidates elements)) as H1.
  pose proof (filter_length_le complete elements) as H2.
  unfold newOnes. unfold candidates in *. rewrite length_map in *.
  repeat split; try lia.
Qed.

Lemma summary_counts_are_ordered_witness :
  let w := fixtures.world [fixtures.trailHatItem] []
             (inr [fixtures.trailHat; fixtures.nameOnly; fixtures.campMug]) in
  exists elements,
    web w listing = inr elements /\
    (0 <= 1 <= 2)%Z /\
    (2 <= Z.of_nat (length elements))%Z /\
    "Indexed 1 new product listings" = "Indexed " +:+ fmt.d 1 +:+ " new product listings".
Proof.
  intros w.
  apply (summary_counts_are_ordered fixtures.marshal w
           {| Message := "Indexed 1 new product listings";
              NumberDiscovered := 2; NumberIndexed := 1 |}
           (snd (Handler fixtures.marshal w))).
  rewrite (surjective_pairing (Handler fixtures.marshal w)) at 1. f_equal.
Defined.

(** X13. When the page cannot be fetched, the handler returns the error
    of the fetch with an empty response, after the scan and without any
    write; the failure is logged. *)
Theorem fetch_failure_is_returned json_Marshal w err :
  scanAccepted w ->
  stringKeys (dynamodb.table (db w)) ->
  web w listing = inl err ->
  exists w',
    Handler json_Marshal w = (Returned (zeroResponse, Some err), w') /\
    dynamodb.requests (db w') = dynamodb.requests (db w) ++ [scanRequest w] /\
    dynamodb.table (db w') = dynamodb.table (db w) /\
    visited w' = visited w ++ [listing] /\
    logged w' = logged w ++ ["Error visiting Rivian Gear Shop: " +:+ err].
Proof.
  intros Hscan Hwf Hweb. rewrite Handler_run by assumption. cbv zeta. rewrite Hweb.
  eexists. split; [reflexivity|]. repeat split.
Qed.

Lemma fetch_failure_is_returned_witness :
  let w := fixtures.world [fixtures.trailHatItem] [] (inl "Not Found") in
  exists w',
    Handler fixtures.marshal w = (Returned (zeroResponse, Some "Not Found"), w') /\
    dynamodb.requests (db w') = [] ++ [scanRequest w] /\
    dynamodb.table (db w') = [fixtures.trailHatItem] /\
    visited w' = [] ++ [listing] /\
    logged w' = [] ++ ["Error visiting Rivian Gear Shop: " +:+ "Not Found"].
Proof.
  intros w. apply (fetch_failure_is_returned fixtures.marshal w "Not Found").
  - intros err [script Hs]. discriminate Hs.
  - intros item attr [<-|[]] Hid. vm_compute in Hid. injection Hid as <-.
    exists "abc123". reflexivity.
  - reflexivity.
Defined.

(** X14. The guard on the size of the payload comes after the writes:
    when the encoded list of all products exceeds 6 MiB, the handler
    returns the error "response payload too large" with an empty response,
    and the new products have been written all the same. *)
Theorem oversized_payload_fails_after_the_writes json_Marshal w elements skuJSON :
  scanAccepted w ->
  stringKeys (dynamodb.table (db w)) ->
  web w listing = inr elements ->
  json_Marshal (candidates elements) = inr skuJSON ->
  (6 * 1024 * 1024 < Z.of_nat (String.length skuJSON))%Z ->
  exists w',
    Handler json_Marshal w =
      (Returned (zeroResponse, Some "response payload too large"), w') /\
    dynamodb.requests (db w') =
      dynamodb.requests (db w) ++ scanRequest w
        :: map (putRequest w) (newOnes (loaded w) elements) /\
    logged w' =
      logged (persistAll (newOnes (loaded w) elements) (visiting listing (loaded w)))
      ++ ["Found " +:+ fmt.d (Z.of_nat (length (candidates elements)))
          +:+ " total product listings";
          "Response payload exceeds 6 MB"].
Proof.
  intros Hscan Hwf Hweb Hm Hsize.
  pose proof (run_requests json_Marshal w Hscan Hwf) as Hreq.
  revert Hreq. unfold toIndex.
  rewrite Handler_run by assumption. cbv zeta. rewrite Hweb, Hm.
  apply Z.ltb_lt in Hsize. rewrite Hsize. intros Hreq.
  eexists. split; [reflexivity|]. split; [exact Hreq|].
  unfold logging, log_Print. simpl. now rewrite <- app_assoc.
Qed.

Lemma filler_length n : String.length (fixtures.filler n) = N.to_nat n.
Proof.
  unfold fixtures.filler. induction n as [|n IH] using N.peano_ind; [reflexivity|].
  rewrite N.iter_succ, N2Nat.inj_succ. simpl. now rewrite IH.
Qed.

Lemma oversized_payload_fails_after_the_writes_witness :
  let w := fixtures.world [] [] (inr [fixtures.trailHat]) in
  exists w',
    Handler fixtures.hugeMarshal w =
      (Returned (zeroResponse, Some "response payload too large"), w') /\
    dynamodb.requests (db w') =
      dynamodb.requests (db w) ++ scanRequest w
        :: map (putRequest w) (newOnes (loaded w) [fixtures.trailHat]) /\
    logged w' =
      logged (persistAll (newOnes (loaded w) [fixtures.trailHat]) (visiting listing (loaded w)))
      ++ ["Found " +:+ fmt.d (Z.of_nat (length (candidates [fixtures.trailHat])))
          +:+ " total product listings";
          "Response payload exceeds 6 MB"].
Proof.
  intros w.
  apply (oversized_payload_fails_after_the_writes fixtures.hugeMarshal w
           [fixtures.trailHat] (fixtures.filler 6291457)).
  - intros err [script Hs]. discriminate Hs.
  - intros item attr [].
  - reflexivity.
  - reflexivity.
  - rewrite filler_length, N_nat_Z. reflexivity.
Defined.

Lemma persistAll_refused batch : forall w errs rest,
  dynamodb.faults (db w) = map Some errs ++ rest ->
  length batch <= length errs ->
  dynamodb.table (db (persistAll batch w)) = dynamodb.table (db w).
Proof.
  induction batch as [|p batch IH]; intros w errs rest Hf Hlen; [reflexivity|].
  destruct errs as [|err errs]; [simpl in Hlen; lia|].
  rewrite persistAll_cons.
  destruct (persist_refused p w err (map Some errs ++ rest) Hf) as [Htable _].
  rewrite <- Htable. apply (IH _ errs rest).
  - rewrite persist_faults, Hf. reflexivity.
  - simpl in Hlen. lia.
Qed.

(** X15. A run all of whose writes are refused leaves the table as it
    was, and the next run over the unchanged page finds the same products
    new again and returns the same summary: refused writes are taken up
    again by the following run. *)
Theorem refused_writes_are_retried json_Marshal w1 response1 w1' w2 errs rest :
  Handler json_Marshal w1 = (Returned (response1, None), w1') ->
  tail (dynamodb.faults (db w1)) = map Some errs ++ rest ->
  length (toIndex w1) <= length errs ->
  dynamodb.table (db w2) = dynamodb.table (db w1') ->
  web w2 = web w1 ->
  scanAccepted w2 ->
  dynamodb.table (db w1') = dynamodb.table (db w1) /\
  exists w2', Handler json_Marshal w2 = (Returned (response1, None), w2').
Proof.
  intros H1 Hfaults Hlen Htable Hweb Hscan2.
  apply Handler_returned in H1
    as (_ & Hwf1 & elements & skuJSON & Hweb1 & Hm & Hsize & -> & Htable1).
  assert (Hsame : dynamodb.table (db w1') = dynamodb.table (db w1)).
  { rewrite Htable1. revert Hlen. unfold toIndex. rewrite Hweb1. intros Hlen.
    now rewrite (persistAll_refused _ _ errs rest). }
  split; [exact Hsame|].
  assert (Hwf2 : stringKeys (dynamodb.table (db w2))) by now rewrite Htable, Hsame.
  assert (Hnew : newOnes (loaded w2) elements = newOnes (loaded w1) elements).
  { apply newOnes_frame. unfold loaded. simpl. now rewrite Htable, Hsame. }
  rewrite Handler_run by assumption. cbv zeta.
  rewrite Hweb, Hweb1, Hm, Hsize, Hnew. eexists. reflexivity.
Qed.

Lemma refused_writes_are_retried_witness :
  let page := inr [fixtures.trailHat; fixtures.campMug] in
  let w1 := fixtures.world [] [None; Some "Throttled"; Some "Throttled"] page in
  let w1' := snd (Handler fixtures.marshal w1) in
  let w2 := fixtures.world (dynamodb.table (db w1')) [] page in
  dynamodb.table (db w1') = dynamodb.table (db w1) /\
  exists w2',
    Handler fixtures.marshal w2 =
      (Returned ({| Message := "Indexed 2 new product listings";
                    NumberDiscovered := 2; NumberIndexed := 2 |}, None), w2').
Proof.
  intros page w1 w1' w2.
  apply (refused_writes_are_retried fixtures.marshal w1 _ w1' w2
           ["Throttled"; "Throttled"] []).
  - unfold w1'. rewrite (surjective_pairing (Handler fixtures.marshal w1)) at 1. f_equal.
  - reflexivity.
  - vm_compute. lia.
  - reflexivity.
  - reflexivity.
  - intros err [script Hs]. discriminate Hs.
Defined.

End RunMore.

(** ** The notifier: whole batches *)

Section NotifierMore.

Import notifier.

Variable EmailTemplate : string -> string -> list string -> Z -> string -> string.
Variable delivery : Delivery.

Lemma index_text record key :
  isString record key ->
  index (events.NewImage (events.Change record)) key = events.AttrString (text record key).
Proof.
  intros [s H]. unfold index, text. unfold field in *. now rewrite H.
Qed.

(** Sending the notification of a record: the request goes out, and the
    head of the answers decides. *)
Lemma deliver_run record w :
  deliver EmailTemplate delivery (text record "Name") (text record "GearShopUrl")
    (announcement record) w =
  (Returned match answers w with
            | inl err :: _ => Some (refusal delivery err)
            | _ => None
            end,
   sending (notification EmailTemplate delivery w record) w).
Proof.
  unfold deliver, notification, refusal, bind, send, sending.
  destruct delivery; destruct (answers w) as [|[err|id] rest]; reflexivity.
Qed.

Lemma processRecord_other record products w :
  isInsert record = false ->
  processRecord EmailTemplate delivery record products w = (Returned (Continue, products), w).
Proof. unfold isInsert, processRecord. now intros ->. Qed.

(** An INSERT record with its four strings, case by case. *)
Lemma processRecord_insert record products w :
  isInsert record = true ->
  stringFields record ->
  processRecord EmailTemplate delivery record products w =
  if isBlank record then (Returned (Break, products), w)
  else if isLocal w then (Returned (Break, products ++ [productOf record]), w)
  else
    (Returned (match answers w with
               | inl err :: _ =>
                   Return ({| Message := ""; Products := [] |}, Some (refusal delivery err))
               | _ => Continue
               end, products ++ [productOf record]),
     sending (notification EmailTemplate delivery w record) w).
Proof.
  intros Hins (Hid & Hname & Hprice & Hurl). unfold isInsert in Hins.
  unfold processRecord. rewrite Hins.
  rewrite !index_text by assumption. unfold events.String_, bind, ret.
  fold (isBlank record). destruct (isBlank record); [reflexivity|].
  destruct (isLocal w); [reflexivity|].
  fold (announcement record). rewrite deliver_run.
  destruct (answers w) as [|[err|id] rest]; reflexivity.
Qed.

(** Sending a notification, whatever it is made of. *)
Lemma deliver_any name url message w :
  exists request,
    deliver EmailTemplate delivery name url message w =
    (Returned match answers w with
              | inl err :: _ => Some (refusal delivery err)
              | _ => None
              end,
     sending request w).
Proof.
  unfold deliver, refusal, bind, send, sending.
  destruct delivery; destruct (answers w) as [|[err|id] rest]; eexists; reflexivity.
Qed.

(** Any INSERT record, whatever its image holds: the loop is left without
    a product, or in local mode with one product and nothing sent, or one
    product is listed and one request sent. *)
Lemma processRecord_any record products w :
  isInsert record = true ->
  processRecord EmailTemplate delivery record products w = (Returned (Break, products), w) \/
  (isLocal w = true /\
   processRecord EmailTemplate delivery record products w =
   (Returned (Break, products ++ [{| ID := read record "Id" |}]), w)) \/
  (isLocal w = false /\
   exists request,
     processRecord EmailTemplate delivery record products w =
     (Returned (match answers w with
                | inl err :: _ =>
                    Return ({| Message := ""; Products := [] |}, Some (refusal delivery err))
                | _ => Continue
                end, products ++ [{| ID := read record "Id" |}]),
      sending request w)).
Proof.
  intros Hins. unfold isInsert in Hins. unfold processRecord. rewrite Hins. cbv zeta.
  fold (read record "Id") (read record "Name") (read record "Price")
       (read record "GearShopUrl").
  destruct (_ && _ && _); [left; reflexivity|]. right.
  destruct (isLocal w); [left; split; reflexivity|]. right. split; [reflexivity|].
  unfold bind.
  destruct (deliver_any (read record "Name") (read record "GearShopUrl")
              ("New Rivian Gear Shop product added: " +:+ read record "Name" +:+ ", Url: "
               +:+ GEAR_SHOP_HOSTNAME +:+ read record "GearShopUrl" +:+ ", Price: "
               +:+ read record "Price") w) as [request ->].
  exists request. destruct (answers w) as [|[err|id] rest]; reflexivity.
Qed.

Lemma rangeRecords_cons record rest products w :
  rangeRecords EmailTemplate delivery (record :: rest) products w =
  match processRecord EmailTemplate delivery record products w with
  | (Returned (Continue, products'), w') => rangeRecords EmailTemplate delivery rest products' w'
  | (Returned (Break, products'), w') => (Returned (inl products'), w')
  | (Returned (Return r, _), w') => (Returned (inr r), w')
  | (Panicked msg, w') => (Panicked msg, w')
  | (Exited n, w') => (Exited n, w')
  end.
Proof.
  simpl. unfold bind.
  destruct (processRecord _ _ _ _ _) as [[[[| |r] ps]| |] w']; reflexivity.
Qed.

Lemma rangeRecords_other records : forall products w,
  Forall (fun record => isInsert record = false) records ->
  rangeRecords EmailTemplate delivery records products w = (Returned (inl products), w).
Proof.
  induction records as [|x records IH]; intros products w H; [reflexivity|].
  inversion H as [|? ? Hx Hrest]; subst.
  rewrite rangeRecords_cons, processRecord_other by exact Hx. now apply IH.
Qed.


(** The loop never panics nor exits, and it returns from inside only
    with an error. *)
Lemma rangeRecords_total records : forall products w,
  exists r w', rangeRecords EmailTemplate delivery records products w = (Returned r, w').
Proof.
  induction records as [|x records IH]; intros products w; [eexists _, _; reflexivity|].
  rewrite rangeRecords_cons. destruct (isInsert x) eqn:Hins.
  - destruct (processRecord_any x products w Hins)
      as [->|[[_ ->]|[_ [request ->]]]]; try (eexists _, _; reflexivity).
    destruct (answers w) as [|[err|id] rest]; try apply IH. eexists _, _; reflexivity.
  - rewrite processRecord_other by exact Hins. apply IH.
Qed.

(** Outside local mode, every product the loop has listed when it ends
    has had its notification sent. *)
Lemma rangeRecords_sent records : forall products w products' w',
  isLocal w = false ->
  rangeRecords EmailTemplate delivery records products w = (Returned (inl products'), w') ->
  length (sent w') + length products = length (sent w) + length products'.
Proof.
  induction records as [|x records IH]; intros products w products' w' Hlocal H.
  - injection H as <- <-. lia.
  - rewrite rangeRecords_cons in H. destruct (isInsert x) eqn:Hins.
    + destruct (processRecord_any x products w Hins)
        as [Hp|[[Hyes _]|[_ [request Hp]]]]; [| congruence |]; rewrite Hp in H.
      * injection H as <- <-. lia.
      * destruct (answers w) as [|[err|id] rest] eqn:Ha; try discriminate H;
          (apply IH in H; [|exact Hlocal]; revert H; unfold sending; simpl;
           rewrite !length_app; simpl; lia).
    + rewrite processRecord_other in H by exact Hins. now apply IH in H.
Qed.

Lemma drop_tail {A} n (l : list A) : drop n (tail l) = drop (S n) l.
Proof. destruct l; [now destruct n | reflexivity]. Qed.

Lemma take_S_accepts n (l : list (error + string)) :
  Forall (fun a => accepts a = true) (take (S n) l) ->
  match l with inl _ :: _ => False | _ => True end /\
  Forall (fun a => accepts a = true) (take n (tail l)).
Proof.
  destruct l as [|[err|id] l]; simpl; intros H.
  - split; [exact I|]. destruct n; constructor.
  - inversion H; discriminate.
  - split; [exact I|]. now inversion H.
Qed.

(** The loop over orderly records whose notifications are all accepted
    goes through them all. *)
Lemma rangeRecords_orderly pre rest : forall products w,
  Forall orderly pre ->
  isLocal w = false ->
  Forall (fun a => accepts a = true) (take (length (List.filter isInsert pre)) (answers w)) ->
  rangeRecords EmailTemplate delivery (pre ++ rest) products w =
  rangeRecords EmailTemplate delivery rest
    (products ++ map productOf (List.filter isInsert pre))
    {| env := env w;
       answers := drop (length (List.filter isInsert pre)) (answers w);
       sent := sent w ++ map (notification EmailTemplate delivery w) (List.filter isInsert pre) |}.
Proof.
  induction pre as [|x pre IH]; intros products w Hpre Hlocal Hacc.
  - simpl. rewrite !app_nil_r. now destruct w.
  - inversion Hpre as [|? ? Hx Hrest]; subst.
    change ((x :: pre) ++ rest) with (x :: pre ++ rest). rewrite rangeRecords_cons.
    simpl List.filter. destruct (isInsert x) eqn:Hins.
    + destruct Hx as [Hx|[Hs Hb]]; [congruence|].
      rewrite processRecord_insert by assumption. rewrite Hb, Hlocal.
      simpl List.filter in Hacc. rewrite Hins in Hacc.
      simpl length in Hacc. apply take_S_accepts in Hacc as [Hhead Htail].
      assert (Hcont : match answers w with
                      | inl err :: _ =>
                          Return ({| Message := ""; Products := [] |},
                                  Some (refusal delivery err))
                      | _ => Continue
                      end = Continue).
      { destruct (answers w) as [|[err|id] l]; [reflexivity | destruct Hhead | reflexivity]. }
      rewrite Hcont.
      rewrite (IH _ (sending (notification EmailTemplate delivery w x) w) Hrest Hlocal Htail).
      simpl. rewrite drop_tail, <- !app_assoc. reflexivity.
    + rewrite processRecord_other by exact Hins.
      simpl List.filter in Hacc. rewrite Hins in Hacc. now apply IH.
Qed.

End NotifierMore.

(** X16. A batch without INSERT records (MODIFY and REMOVE events only,
    or no event at all) sends nothing and lists no product, whatever the
    images of its records hold; the message counts the records. *)
Theorem batch_without_insert_sends_nothing EmailTemplate delivery records w :
  Forall (fun record => notifier.isInsert record = false) records ->
  notifier.Handler EmailTemplate delivery {| events.Records := records |} w =
  (Returned ({| notifier.Message := notifier.processed (length records);
                notifier.Products := [] |}, None), w).
Proof.
  intros H. unfold notifier.Handler, bind. simpl events.Records.
  now rewrite rangeRecords_other.
Qed.

Lemma batch_without_insert_sends_nothing_witness :
  notifier.Handler fixtures.noTemplate notifier.SESHtmlMail
    {| events.Records := [fixtures.modify; fixtures.modify] |} fixtures.deployed =
  (Returned ({| notifier.Message := notifier.processed 2;
                notifier.Products := [] |}, None), fixtures.deployed).
Proof.
  apply (batch_without_insert_sends_nothing fixtures.noTemplate notifier.SESHtmlMail
           [fixtures.modify; fixtures.modify] fixtures.deployed).
  repeat constructor.
Defined.



(** X18. The handler always returns, whatever the images of the records
    hold, and whenever it returns without an error its message counts all
    the records of the event, however many of them the loop has gone
    through. *)
Theorem returned_message_counts_the_batch EmailTemplate delivery event w :
  exists response err w',
    notifier.Handler EmailTemplate delivery event w = (Returned (response, err), w') /\
    (err = None ->
     notifier.Message response = notifier.processed (length (events.Records event))).
Proof.
  unfold notifier.Handler, bind.
  destruct (rangeRecords_total EmailTemplate delivery (events.Records event) [] w)
    as (r & w' & E). rewrite E. destruct r as [products|[response err]].
  - eexists _, _, _. split; [reflexivity|]. reflexivity.
  - eexists _, _, _. split; [reflexivity|].
    apply rangeRecords_return in E. intros ->. easy.
Qed.

Lemma returned_message_counts_the_batch_witness :
  let event :=
    {| events.Records :=
         [fixtures.trailHatInsert; fixtures.blankWithoutPrice; fixtures.campMugInsert] |} in
  exists response err w',
    notifier.Handler fixtures.noTemplate notifier.SESTextMail event fixtures.deployed
      = (Returned (response, err), w') /\
    (err = None ->
     notifier.Message response = notifier.processed (length (events.Records event))).
Proof.
  intros event.
  exact (returned_message_counts_the_batch fixtures.noTemplate notifier.SESTextMail event
           fixtures.deployed).
Defined.

(** X19. Outside local mode, with a service that accepts, a batch of
    orderly records (events other than INSERT, and INSERT records with
    their four strings that are not blank) has one notification sent for
    each INSERT, in the order of the batch, and the response lists the ids
    of these records in the same order. *)
Theorem accepted_batch_notifies_every_insert EmailTemplate delivery records w :
  Forall notifier.orderly records ->
  notifier.isLocal w = false ->
  Forall (fun a => notifier.accepts a = true) (notifier.answers w) ->
  let inserts := List.filter notifier.isInsert records in
  notifier.Handler EmailTemplate delivery {| events.Records := records |} w =
  (Returned ({| notifier.Message := notifier.processed (length records);
                notifier.Products := map notifier.productOf inserts |}, None),
   {| notifier.env := notifier.env w;
      notifier.answers := drop (length inserts) (notifier.answers w);
      notifier.sent :=
        notifier.sent w ++ map (notifier.notification EmailTemplate delivery w) inserts |}).
Proof.
  intros Hrecords Hlocal Hacc inserts. unfold notifier.Handler, bind. simpl events.Records.
  rewrite <- (app_nil_r records) at 1.
  rewrite rangeRecords_orderly; [reflexivity | assumption | assumption |].
  apply Forall_take. exact Hacc.
Qed.

Lemma accepted_batch_notifies_every_insert_witness :
  let records := [fixtures.trailHatInsert; fixtures.modify; fixtures.campMugInsert] in
  let w := fixtures.deployed in
  let inserts := List.filter notifier.isInsert records in
  notifier.Handler fixtures.noTemplate notifier.SNSPublish {| events.Records := records |} w =
  (Returned ({| notifier.Message := notifier.processed (length records);
                notifier.Products := map notifier.productOf inserts |}, None),
   {| notifier.env := notifier.env w;
      notifier.answers := drop (length inserts) (notifier.answers w);
      notifier.sent :=
        notifier.sent w
        ++ map (notifier.notification fixtures.noTemplate notifier.SNSPublish w) inserts |}).
Proof.
  intros records w.
  apply (accepted_batch_notifies_every_insert fixtures.noTemplate notifier.SNSPublish
           records w).
  - apply List.Forall_cons; [|apply List.Forall_cons; [|apply List.Forall_cons]].
    + right. split; [|reflexivity]. repeat split; eexists; reflexivity.
    + left. reflexivity.
    + right. split; [|reflexivity]. repeat split; eexists; reflexivity.
    + apply List.Forall_nil.
  - reflexivity.
  - apply List.Forall_nil.
Defined.



(** X21. Outside local mode, a response without an error lists exactly as
    many products as notifications were sent during the run: no product is
    listed without its notification having been accepted. *)
Theorem one_notification_per_listed_product EmailTemplate delivery event w response w' :
  notifier.isLocal w = false ->
  notifier.Handler EmailTemplate delivery event w = (Returned (response, None), w') ->
  length (notifier.sent w') = length (notifier.sent w) + length (notifier.Products response).
Proof.
  intros Hlocal. unfold notifier.Handler, bind.
  destruct (notifier.rangeRecords _ _ _ _ _) as [[[products|[r err]]| |] w1] eqn:E;
    try discriminate.
  - intros [= <- <-]. apply rangeRecords_sent in E; [|exact Hlocal]. simpl in *. lia.
  - apply rangeRecords_return in E. intros [= -> -> _]. easy.
Qed.

Lemma one_notification_per_listed_product_witness :
  let event :=
    {| events.Records := [fixtures.trailHatInsert; fixtures.modify; fixtures.campMugInsert] |} in
  let w' := snd (notifier.Handler fixtures.noTemplate notifier.SESTextMail event
                   fixtures.deployed) in
  length (notifier.sent w') =
  length (notifier.sent fixtures.deployed)
  + length (notifier.Products
              {| notifier.Message := "Successfully processed 3 DynamoDB stream event(s)";
                 notifier.Products := [{| notifier.ID := "abc123" |};
                                       {| notifier.ID := "xyz999" |}] |}).
Proof.
  intros event w'.
  apply (one_notification_per_listed_product fixtures.noTemplate notifier.SESTextMail event
           fixtures.deployed _ w').
  - reflexivity.
  - unfold w'.
    rewrite (surjective_pairing
               (notifier.Handler fixtures.noTemplate notifier.SESTextMail event
                  fixtures.deployed)) at 1.
    f_equal.
Defined.
